(** * WellStatsReader: the ingestion listener and the history file

    A shallow embedding of [src/well_data_dashboard.py]: the socket listener
    [dashboard_listener] (lines 33-90), the "Reset Data" handler (lines
    108-111) and the read path of the display (lines 176-187), with the
    properties of the history file they maintain; then the buttons and the
    gate of the display (lines 24-29, 96-112, 176, 519-525), the status
    flags (lines 204-214) and the count of forecast alerts (lines 510-513). *)

From Stdlib Require Import String Ascii ZArith Bool Arith Lia List Permutation.
Import ListNotations.
Local Open Scope string_scope.
Local Open Scope list_scope.

(** ** Python values that [json.loads] produces *)

Module Json.

(** A parsed JSON document.  A Python [int] is a [Z]; a Python [float] is kept
    as its 64-bit IEEE pattern; a [dict] is the list of its items in insertion
    order (the parser never yields two items with one key); a [str] is a
    [string] whose elements stand for its characters. *)
#[warnings="-register-all"] Inductive json : Type :=
| JNull
| JBool (b : bool)
| JInt (z : Z)
| JFloat (bits : Z)
| JStr (s : string)
| JArr (items : list json)
| JObj (items : list (string * json)).

(** [key in d] and [d[key]] on a dict. *)
Fixpoint dict_lookup (key : string) (items : list (string * json)) : option json :=
  match items with
  | [] => None
  | (k, v) :: rest => if String.eqb k key then Some v else dict_lookup key rest
  end.

(** [isinstance(v, list)]. *)
Definition is_list (v : json) : bool :=
  match v with JArr _ => true | _ => false end.

(** [isinstance(v, dict)]. *)
Definition is_dict (v : json) : bool :=
  match v with JObj _ => true | _ => false end.

(** The characters of a [str], each one a [str] of length one. *)
Fixpoint chars (s : string) : list json :=
  match s with
  | EmptyString => []
  | String c rest => JStr (String c EmptyString) :: chars rest
  end.

(** Truth value of a Python object, as [if v] tests it. *)
Definition truthy (v : json) : bool :=
  match v with
  | JNull => false
  | JBool b => b
  | JInt z => negb (Z.eqb z 0)
  | JFloat bits => negb (Z.eqb (Z.land bits (Z.ones 63)) 0)
  | JStr s => negb (String.eqb s "")
  | JArr items => match items with [] => false | _ => true end
  | JObj items => match items with [] => false | _ => true end
  end.

End Json.
Export Json.

(** ** Exceptions, results and the world the listener runs in *)

(** The exception classes that the modelled lines can raise. *)
Inductive exn : Type :=
| JSONDecodeError
| TypeError
| AttributeError
| UnicodeDecodeError
| OSError.

Inductive result (A : Type) : Type :=
| Ok (a : A)
| Raise (e : exn).
Arguments Ok {A} a.
Arguments Raise {A} e.

(** What [oil_well_history.json] holds.  [Stored v]: a complete JSON document
    with value [v].  [Torn]: the file was truncated by [open(..., "w")] and
    the text written after it stops before the end of the document; such a
    text is empty or has an unclosed bracket, so [json.load] rejects it. *)
Inductive file_state : Type :=
| Missing
| Stored (v : json)
| Torn.

(** How one [with open(history_file, "w") as f: json.dump(..., f)] ends:
    normally; with [open] raising before it touches the file (permission
    denied); or with the write raising after [open] truncated the file (disk
    full). *)
Inductive write_outcome : Type :=
| WriteOk
| OpenFails
| DumpFails.

(** The lines that the listener prints. *)
Inductive event : Type :=
| Received (addr : string) (n : nat)
| Forecasts (k : nat)
| ErrJsonDecode
| ErrReceiving (e : exn).

Record world : Type := mkWorld {
  file : file_state;
  log : list event
}.

(** ** A state-and-exception monad for the body of the listener *)

Definition M (A : Type) : Type := world -> result A * world.

Definition ret {A} (a : A) : M A := fun w => (Ok a, w).

Definition raise {A} (e : exn) : M A := fun w => (Raise e, w).

Definition bind {A B} (m : M A) (k : A -> M B) : M B :=
  fun w =>
    match m w with
    | (Ok a, w') => k a w'
    | (Raise e, w') => (Raise e, w')
    end.

Notation "x <- m ;; k" := (bind m (fun x => k))
  (at level 61, m at next level, right associativity).
Notation "m ;;; k" := (bind m (fun _ => k))
  (at level 61, right associativity).

Definition lift {A} (r : result A) : M A := fun w => (r, w).

Definition print (ev : event) : M unit :=
  fun w => (Ok tt, mkWorld (file w) (log w ++ [ev])).

Definition get_file : M file_state := fun w => (Ok (file w), w).

Definition set_file (f : file_state) : M unit :=
  fun w => (Ok tt, mkWorld f (log w)).

(** [try: body except cls: handler], for the exceptions [catches] selects. *)
Definition try_except (body : M unit) (catches : exn -> bool)
    (handler : exn -> M unit) : M unit :=
  fun w =>
    match body w with
    | (Ok tt, w') => (Ok tt, w')
    | (Raise e, w') => if catches e then handler e w' else (Raise e, w')
    end.

(** ** Sequences *)

(** [len(v)]: defined on lists, dicts and strings. *)
Definition py_len (v : json) : result nat :=
  match v with
  | JArr items => Ok (List.length items)
  | JObj items => Ok (List.length items)
  | JStr s => Ok (String.length s)
  | _ => Raise TypeError
  end.

(** What [for x in v] and [*v] run through: the elements of a list, the keys
    of a dict, the characters of a string. *)
Definition py_iter (v : json) : result (list json) :=
  match v with
  | JArr items => Ok items
  | JObj items => Ok (map (fun kv => JStr (fst kv)) items)
  | JStr s => Ok (chars s)
  | _ => Raise TypeError
  end.

(** [record.get(key)]: only a dict has the method. *)
Definition py_get (record : json) (key : string) : result json :=
  match record with
  | JObj items =>
      match dict_lookup key items with
      | Some v => Ok v
      | None => Ok JNull
      end
  | _ => Raise AttributeError
  end.

(** ** The payload decoder (lines 56-61) *)

(** [new_data] as lines 56-61 choose it from the parsed [data]. *)
Definition resolve_shape (data : json) : json :=
  match data with
  | JObj items =>
      match dict_lookup "well_data" items with
      | Some v => v
      | None => JArr [data]
      end
  | JArr _ => data
  | _ => JArr [data]
  end.

(** [sum(1 for record in new_data if record.get("forecast"))], line 66; the
    generator stops at the first record without a [get] method. *)
Fixpoint forecast_count (records : list json) : result nat :=
  match records with
  | [] => Ok 0
  | record :: rest =>
      match py_get record "forecast" with
      | Raise e => Raise e
      | Ok v =>
          match forecast_count rest with
          | Raise e => Raise e
          | Ok n => Ok (if truthy v then S n else n)
          end
      end
  end.

(** ** The history store *)

Definition capacity : nat := 1000.

(** Lines 71-75: the history as the merge reads it. *)
Definition load_history (f : file_state) : result json :=
  match f with
  | Missing => Ok (JArr [])
  | Stored v => Ok v
  | Torn => Raise JSONDecodeError
  end.

(** Lines 78 and 81: [[*new_data, *history][:1000]]. *)
Definition prepend_and_cap (new_data history : json) : result (list json) :=
  match py_iter new_data with
  | Raise e => Raise e
  | Ok news =>
      match py_iter history with
      | Raise e => Raise e
      | Ok olds => Ok (firstn capacity (news ++ olds))
      end
  end.

(** [with open(history_file, "w") as f: json.dump(v, f)]. *)
Definition write_file (o : write_outcome) (v : json) : M unit :=
  match o with
  | WriteOk => set_file (Stored v)
  | OpenFails => raise OSError
  | DumpFails => set_file Torn ;;; raise OSError
  end.

(** Lines 71-75: the read half of a merge. *)
Definition merge_read : M json :=
  f <- get_file ;;
  lift (load_history f).

(** Lines 78-85: the write half of a merge, on the [history] read before. *)
Definition merge_write (o : write_outcome) (new_data history : json) : M unit :=
  history' <- lift (prepend_and_cap new_data history) ;;
  write_file o (JArr history').

(** Lines 70-85: the merge of [new_data] into the history file. *)
Definition merge (o : write_outcome) (new_data : json) : M unit :=
  history <- merge_read ;;
  merge_write o new_data history.

(** Lines 27-29: the file is created empty when the script finds none. *)
Definition create_if_missing (o : write_outcome) : M unit :=
  f <- get_file ;;
  match f with
  | Missing => write_file o (JArr [])
  | _ => ret tt
  end.

(** Lines 109-110: the "Reset Data" button. *)
Definition reset (o : write_outcome) : M unit :=
  write_file o (JArr []).

(** Lines 182-187: one level of nesting removed. *)
Fixpoint flatten (data : list json) : list json :=
  match data with
  | [] => []
  | JArr inner :: rest => inner ++ flatten rest
  | entry :: rest => entry :: flatten rest
  end.

(** Lines 178-187: [flattened_data] as the display computes it. *)
Definition snapshot : M (list json) :=
  f <- get_file ;;
  match f with
  | Missing => raise OSError
  | Torn => raise JSONDecodeError
  | Stored data =>
      entries <- lift (py_iter data) ;;
      ret (flatten entries)
  end.

(** Merges one after another, every write succeeding. *)
Fixpoint merge_all (batches : list (list json)) : M unit :=
  match batches with
  | [] => ret tt
  | batch :: rest => merge WriteOk (JArr batch) ;;; merge_all rest
  end.

(** The schedule in which the button handler (lines 109-110) runs between
    line 73 and line 84 of a merge in flight in the listener thread, and the
    display reads the file once both are done. *)
Definition reset_during_merge (new_data : json) : M (list json) :=
  history <- merge_read ;;
  reset WriteOk ;;;
  merge_write WriteOk new_data history ;;;
  snapshot.

(** ** The listener (lines 40-90) *)

(** What one [conn.recv(8192).decode()] gives: a piece of text, or an
    exception of the socket or of the decoding. *)
Inductive recv_result : Type :=
| Chunk (s : string)
| RecvRaises (e : exn).

(** An accepted connection: the peer address and what the successive calls
    of [recv] give; after the last one the peer has closed and [recv] gives
    the empty text. *)
Record connection : Type := mkConnection {
  addr : string;
  incoming : list recv_result
}.

(** Lines 44-49. *)
Fixpoint recv_all (buffer : string) (incoming : list recv_result) : result string :=
  match incoming with
  | [] => Ok buffer
  | Chunk s :: rest =>
      if String.eqb s "" then Ok buffer else recv_all (String.append buffer s) rest
  | RecvRaises e :: _ => Raise e
  end.

Definition is_json_decode_error (e : exn) : bool :=
  match e with JSONDecodeError => true | _ => false end.

Section Listener.

(** [json.loads] of the standard library: [None] when it raises
    [json.JSONDecodeError]. *)
Variable loads : string -> option json.

Definition json_loads (buffer : string) : result json :=
  match loads buffer with
  | Some data => Ok data
  | None => Raise JSONDecodeError
  end.

(** Lines 53-85, the body of the inner [try]. *)
Definition decode_and_merge (o : write_outcome) (peer buffer : string) : M unit :=
  data <- lift (json_loads buffer) ;;
  let new_data := resolve_shape data in
  n <- lift (py_len new_data) ;;
  print (Received peer n) ;;;
  records <- lift (py_iter new_data) ;;
  k <- lift (forecast_count records) ;;
  (if Nat.ltb 0 k then print (Forecasts k) else ret tt) ;;;
  merge o new_data.

(** Lines 51-88. *)
Definition handle_buffer (o : write_outcome) (peer buffer : string) : M unit :=
  if String.eqb buffer "" then ret tt
  else try_except (decode_and_merge o peer buffer) is_json_decode_error
         (fun _ => print ErrJsonDecode).

(** Lines 43-90: one turn of the accept loop. *)
Definition handle_connection (o : write_outcome) (c : connection) : M unit :=
  try_except
    (buffer <- lift (recv_all "" (incoming c)) ;;
     handle_buffer o (addr c) buffer)
    (fun _ => true)
    (fun e => print (ErrReceiving e)).

(** Lines 40-42: the listener thread takes the connections one at a time, in
    the order [accept] returns them. *)
Fixpoint serve (conns : list (write_outcome * connection)) : M unit :=
  match conns with
  | [] => ret tt
  | (o, c) :: rest => handle_connection o c ;;; serve rest
  end.

(** The connection [c] delivers a well-formed payload of the records
    [records], each of them a JSON object. *)
Definition delivers (c : connection) (records : list json) : Prop :=
  Forall (fun r => is_dict r = true) records
  /\ exists buffer data,
       recv_all "" (incoming c) = Ok buffer
       /\ buffer <> ""
       /\ loads buffer = Some data
       /\ resolve_shape data = JArr records.

End Listener.

(** ** The control surface and the display (lines 24-29, 96-112, 176-187, 519-525) *)

(** [st.session_state]: a key that was never assigned is [None]. *)
Record session : Type := mkSession {
  server_active : option bool;
  cleared : option bool
}.

(** [st.session_state.get(key, False)]. *)
Definition session_get (flag : option bool) : bool :=
  match flag with
  | Some b => b
  | None => false
  end.

(** What made the script run: a timer tick of [st_autorefresh], or the one
    button that returns [True] in this run. *)
Inductive click : Type :=
| NoClick
| ClickStart
| ClickStop
| ClickReset.

(** What the last [if] of the script (lines 176-525) puts on the page.
    [ShowDashboard data]: lines 178-187 gave [flattened_data = data], which
    goes to [pd.DataFrame]; [ShowLoadError]: line 520; [ShowCleared]: line
    523; [ShowInactive]: line 525. *)
Inductive view : Type :=
| ShowDashboard (flattened_data : list json)
| ShowLoadError (e : exn)
| ShowCleared
| ShowInactive.

(** Lines 24-25. *)
Definition init_session (s : session) : session :=
  match server_active s with
  | None => mkSession (Some false) (cleared s)
  | Some _ => s
  end.

(** Lines 176-187 and 519-525. *)
Definition display (s : session) (w : world) : view * world :=
  if session_get (server_active s) && negb (session_get (cleared s)) then
    match snapshot w with
    | (Ok data, w') => (ShowDashboard data, w')
    | (Raise e, w') => (ShowLoadError e, w')
    end
  else if session_get (cleared s) then (ShowCleared, w)
  else (ShowInactive, w).

(** Lines 98-112: the three buttons.  An exception of the reset leaves the
    session as it was and ends the run. *)
Definition press (o : write_outcome) (c : click) (s : session) (w : world)
  : session * result unit * world :=
  match c with
  | NoClick => (s, Ok tt, w)
  | ClickStart => (mkSession (Some true) (cleared s), Ok tt, w)
  | ClickStop => (mkSession (Some false) (cleared s), Ok tt, w)
  | ClickReset =>
      match reset o w with
      | (Ok tt, w') => (mkSession (server_active s) (Some true), Ok tt, w')
      | (Raise e, w') => (s, Raise e, w')
      end
  end.

(** One run of the script, from line 24 to line 525, without the thread it
    starts at line 94: the session it leaves, the page or the exception that
    ended the run, and the world. *)
Definition run_script (o_create o_reset : write_outcome) (c : click)
    (s : session) (w : world) : session * result view * world :=
  let s1 := init_session s in
  match create_if_missing o_create w with
  | (Raise e, w1) => (s1, Raise e, w1)
  | (Ok tt, w1) =>
      match press o_reset c s1 w1 with
      | (s2, Raise e, w2) => (s2, Raise e, w2)
      | (s2, Ok tt, w2) =>
          let (v, w3) := display s2 w2 in (s2, Ok v, w3)
      end
  end.

(** ** Status flags (lines 204-214) *)

(** [needle in hay] on two strings. *)
Fixpoint contains (needle hay : string) : bool :=
  if String.prefix needle hay then true
  else match hay with
       | EmptyString => false
       | String _ rest => contains needle rest
       end.

Definition flag_critical : string := "🔴".
Definition flag_warning : string := "🟠".
Definition flag_caution : string := "🟡".
Definition flag_normal : string := "🟢".
Definition flag_unknown : string := "⚪".

(** Lines 204-214. *)
Definition get_status_flag (status : json) : string :=
  match status with
  | JStr s =>
      if contains "Critical" s then flag_critical
      else if contains "Warning" s || contains "High" s || contains "Low" s
      then flag_warning
      else if contains "Concerning" s || contains "Caution" s then flag_caution
      else if contains "Normal" s || contains "Optimal" s
              || contains "Excellent" s || contains "Healthy" s
      then flag_normal
      else flag_unknown
  | _ => flag_unknown
  end.

(** How alarming a flag is, from the white one (0) to the red one (4). *)
Definition flag_rank (flag : string) : nat :=
  if String.eqb flag flag_critical then 4
  else if String.eqb flag flag_warning then 3
  else if String.eqb flag flag_caution then 2
  else if String.eqb flag flag_normal then 1
  else 0.

(** The rank of a flag from the four tests of lines 206-212. *)
Definition rank_of_tests (critical warning caution normal : bool) : nat :=
  if critical then 4 else if warning then 3 else if caution then 2
  else if normal then 1 else 0.

(** ** The count of forecast alerts (lines 510-513) *)

(** ['FORECAST' in alert]: a substring of a string, an element of a list, a
    key of a dict. *)
Definition py_in (needle : string) (container : json) : result bool :=
  match container with
  | JStr s => Ok (contains needle s)
  | JArr items =>
      Ok (existsb (fun v => match v with JStr s => String.eqb s needle | _ => false end)
            items)
  | JObj items => Ok (existsb (fun kv => String.eqb (fst kv) needle) items)
  | _ => Raise TypeError
  end.

(** [record.get('alerts', [])]. *)
Definition get_alerts (record : json) : result json :=
  match record with
  | JObj items =>
      match dict_lookup "alerts" items with
      | Some v => Ok v
      | None => Ok (JArr [])
      end
  | _ => Raise AttributeError
  end.

(** [len([alert for alert in alerts if 'FORECAST' in alert])]. *)
Fixpoint count_forecast_alerts (alerts : list json) : result nat :=
  match alerts with
  | [] => Ok 0
  | alert :: rest =>
      match py_in "FORECAST" alert with
      | Raise e => Raise e
      | Ok b =>
          match count_forecast_alerts rest with
          | Raise e => Raise e
          | Ok n => Ok (if b then S n else n)
          end
      end
  end.

(** Lines 510-513: [total_forecast_alerts] over [flattened_data]. *)
Fixpoint total_forecast_alerts (flattened_data : list json) : result nat :=
  match flattened_data with
  | [] => Ok 0
  | record :: rest =>
      match get_alerts record with
      | Raise e => Raise e
      | Ok alerts =>
          match py_iter alerts with
          | Raise e => Raise e
          | Ok items =>
              match count_forecast_alerts items with
              | Raise e => Raise e
              | Ok n =>
                  match total_forecast_alerts rest with
                  | Raise e => Raise e
                  | Ok m => Ok (n + m)
                  end
              end
          end
      end
  end.

(** ** Alert banners (lines 306-337) *)

(** The line that lines 313 and 315 build for one alert. *)
Definition alert_line (timestamp client alert : string) : string :=
  String.append "**"
    (String.append timestamp
       (String.append "** - "
          (String.append client (String.append ": " alert)))).

(** The call that shows a line: [st.error], [st.warning] or [st.info]. *)
Inductive banner : Type :=
| StError
| StWarning
| StInfo.

(** Lines 321-326, for a line of [forecast_alerts]. *)
Definition forecast_banner (line : string) : banner :=
  if contains "CRITICAL" line || contains "ALERT" line then StError
  else if contains "WARNING" line then StWarning
  else StInfo.

(** Lines 332-337, for a line of [recent_alerts]. *)
Definition current_banner (line : string) : banner :=
  if contains "CRITICAL" line then StError
  else if contains "WARNING" line then StWarning
  else StInfo.

Definition banner_rank (b : banner) : nat :=
  match b with
  | StError => 2
  | StWarning => 1
  | StInfo => 0
  end.

(** The test of line 66 on one record that is an object. *)
Definition has_forecast (record : json) : bool :=
  match py_get record "forecast" with
  | Ok v => truthy v
  | Raise _ => false
  end.

(** ** Notions used in the statements *)

(** The text is ASCII: every character has a code below 128, and is one
    byte on the wire. *)
Fixpoint is_ascii_text (s : string) : bool :=
  match s with
  | EmptyString => true
  | String c rest => Nat.ltb (nat_of_ascii c) 128 && is_ascii_text rest
  end.

(** The text that the pieces of a stream make up. *)
Definition join (pieces : list string) : string :=
  fold_right String.append "" pieces.

(** A history file as the listener and the reset leave it: absent, torn, or
    a list of at most 1000 entries that are all JSON objects. *)
Definition tidy (f : file_state) : Prop :=
  match f with
  | Missing => True
  | Torn => True
  | Stored (JArr h) => length h <= capacity /\ Forall (fun r => is_dict r = true) h
  | Stored _ => False
  end.

(** The record is an object whose alerts are the texts [texts]; no [alerts]
    key stands for no text. *)
Definition has_alerts (record : json) (texts : list string) : Prop :=
  exists items,
    record = JObj items
    /\ ((dict_lookup "alerts" items = None /\ texts = [])
        \/ dict_lookup "alerts" items = Some (JArr (map JStr texts))).

(** ** Sample records *)

(** Two well records as a producer sends them. *)
Definition record_w1 : json :=
  JObj [("timestamp", JStr "2024-01-01T00:00:00Z"); ("client", JStr "W1");
        ("Oil volume", JInt 50)].

Definition record_w2 : json :=
  JObj [("timestamp", JStr "2024-01-01T00:00:10Z"); ("client", JStr "W2");
        ("Oil volume", JInt 60)].

Definition record_w3 : json :=
  JObj [("timestamp", JStr "2024-01-01T00:00:20Z"); ("client", JStr "W3");
        ("Oil volume", JInt 70); ("forecast", JObj [("forecast_date", JStr "2024-01-02")])].

(** A parser that gives what [json.loads] gives on the texts of the examples
    below and rejects every other text; it stands in for the parser there. *)
Definition sample_loads (text : string) : option json :=
  if String.eqb text "[{}]" then Some (JArr [JObj []])
  else if String.eqb text "{}" then Some (JObj [])
  else if String.eqb text "[]" then Some (JArr [])
  else None.

(** The words that lines 206-212 look for. *)
Definition status_words : list string :=
  ["Critical"; "Warning"; "High"; "Low"; "Concerning"; "Caution";
   "Normal"; "Optimal"; "Excellent"; "Healthy"].

(** A parser for the example of a payload with a number among its records. *)
Definition sample_loads_mixed (text : string) : option json :=
  if String.eqb text "[{}, 5]" then Some (JArr [JObj []; JInt 5]) else None.

(** ** The description of the spec, for comparison *)

(** One level of flattening as the specification words it: an entry that is
    a list is replaced by its members, any other entry stays. *)
Definition splice_entry (entry : json) : list json :=
  match entry with
  | JArr members => members
  | _ => [entry]
  end.

Definition splice_one_level (entries : list json) : list json :=
  concat (map splice_entry entries).

(** Shape resolution as the specification words it: the value under
    [well_data] is taken only when it is a sequence. *)
Definition resolve_shape_by_spec (data : json) : json :=
  match data with
  | JObj items =>
      match dict_lookup "well_data" items with
      | Some (JArr records) => JArr records
      | _ => JArr [data]
      end
  | JArr _ => data
  | _ => JArr [data]
  end.

(** * Properties *)

(** ** Truncation of a prepended list *)

Section Truncation.

Context {A : Type}.
Implicit Types (xs ys : list A) (n : nat).

Lemma firstn_app_firstn n xs ys :
  firstn n (xs ++ firstn n ys) = firstn n (xs ++ ys).
Proof.
  rewrite !firstn_app, firstn_firstn.
  f_equal. f_equal. lia.
Qed.

Lemma firstn_is_prefix n xs : exists tail, xs = firstn n xs ++ tail.
Proof.
  exists (skipn n xs). symmetry. apply firstn_skipn.
Qed.

Lemma firstn_cons_full n x xs :
  length xs = S n -> firstn (S n) (x :: xs) = x :: removelast xs.
Proof.
  intros Hlen. cbn [firstn]. f_equal.
  rewrite removelast_firstn_len, Hlen. reflexivity.
Qed.

Lemma length_concat_rev (bs : list (list A)) :
  length (concat (rev bs)) = list_sum (map (@length A) bs).
Proof.
  induction bs as [|b bs IH]; [reflexivity|].
  cbn [rev map list_sum]. rewrite concat_app, length_app, IH.
  cbn [concat]. rewrite app_nil_r. simpl list_sum. lia.
Qed.

End Truncation.

(** ** Running the store operations *)

Lemma merge_lists news olds l :
  merge WriteOk (JArr news) (mkWorld (Stored (JArr olds)) l)
  = (Ok tt, mkWorld (Stored (JArr (firstn capacity (news ++ olds)))) l).
Proof. reflexivity. Qed.

Lemma merge_all_from olds batches l :
  length olds <= capacity ->
  merge_all batches (mkWorld (Stored (JArr olds)) l)
  = (Ok tt,
     mkWorld (Stored (JArr (firstn capacity (concat (rev batches) ++ olds)))) l).
Proof.
  revert olds. induction batches as [|b bs IH]; intros olds Hlen.
  - cbn [merge_all rev concat app]. unfold ret.
    now rewrite firstn_all2.
  - cbn [merge_all]. unfold bind at 1. rewrite merge_lists.
    rewrite IH by apply firstn_le_length.
    rewrite firstn_app_firstn.
    cbn [rev]. rewrite concat_app. cbn [concat].
    now rewrite app_nil_r, <- app_assoc.
Qed.

Lemma flatten_splice entries : flatten entries = splice_one_level entries.
Proof.
  unfold splice_one_level.
  induction entries as [|e rest IH]; [reflexivity|].
  cbn [map concat]. rewrite <- IH.
  destruct e; reflexivity.
Qed.

Lemma snapshot_stored_list entries l :
  snapshot (mkWorld (Stored (JArr entries)) l)
  = (Ok (flatten entries), mkWorld (Stored (JArr entries)) l).
Proof. reflexivity. Qed.

(** ** The capacity invariant *)

(** C1: from an empty history, after any sequence of merges the file holds
    [min (records merged so far) 1000] entries; they are the first 1000 of
    all merged records taken newest batch first, so what is missing is a tail
    of that sequence and never its head. *)
Theorem capacity_invariant (batches : list (list json)) (l : list event) :
  exists stored evicted,
    merge_all batches (mkWorld (Stored (JArr [])) l)
      = (Ok tt, mkWorld (Stored (JArr stored)) l)
    /\ length stored = Nat.min (list_sum (map (@length json) batches)) 1000
    /\ stored = firstn 1000 (concat (rev batches))
    /\ concat (rev batches) = stored ++ evicted.
Proof.
  set (everything := concat (rev batches)).
  exists (firstn capacity everything), (skipn capacity everything).
  repeat split.
  - rewrite merge_all_from by (cbn; lia).
    now rewrite app_nil_r.
  - rewrite length_firstn. unfold everything.
    rewrite length_concat_rev. unfold capacity. lia.
  - symmetry. apply firstn_skipn.
Qed.

(** ** The merge *)

(** C2: a merge of [newRecords] into the persisted history [h] writes the
    first 1000 entries of [newRecords ++ h]; when [h] is full and one record
    comes in, the file holds that record followed by [h] without its last
    entry, so the record is at position 0 and every kept entry moved by one. *)
Theorem merge_prepends_and_truncates (newRecords h : list json) (l : list event) :
  merge WriteOk (JArr newRecords) (mkWorld (Stored (JArr h)) l)
    = (Ok tt, mkWorld (Stored (JArr (firstn 1000 (newRecords ++ h)))) l)
  /\ forall r : json,
       length h = 1000 ->
       let stored := firstn 1000 ([r] ++ h) in
       stored = r :: removelast h
       /\ length stored = 1000
       /\ nth_error stored 0 = Some r
       /\ (forall i, S i < 1000 -> nth_error stored (S i) = nth_error h i)
       /\ h = removelast h ++ [last h r].
Proof.
  split; [reflexivity|].
  intros r Hlen stored.
  assert (Hstored : stored = r :: removelast h).
  { unfold stored. cbn [app]. now apply (firstn_cons_full 999). }
  assert (Hne : h <> []) by (intros ->; discriminate).
  assert (Hsplit : h = removelast h ++ [last h r]) by now apply app_removelast_last.
  split; [exact Hstored|].
  split; [|split; [|split; [|exact Hsplit]]].
  - unfold stored. rewrite length_firstn. cbn [app length]. lia.
  - now rewrite Hstored.
  - intros i Hi. rewrite Hstored. cbn [nth_error].
    rewrite Hsplit at 2.
    rewrite nth_error_app1; [reflexivity|].
    assert (length h = length (removelast h) + 1).
    { rewrite Hsplit at 1. rewrite length_app. reflexivity. }
    lia.
Qed.

(** A full history and one incoming record. *)
Lemma merge_prepends_and_truncates_witness :
  let h := repeat record_w1 1000 in
  length h = 1000
  /\ nth_error (firstn 1000 ([record_w2] ++ h)) 0 = Some record_w2.
Proof.
  intros h.
  assert (Hlen : length h = 1000) by apply repeat_length.
  split; [exact Hlen|].
  exact (proj1 (proj2 (proj2
    (proj2 (merge_prepends_and_truncates [record_w2] h []) record_w2 Hlen)))).
Defined.

(** ** The read path *)

(** C5: on a persisted history the read returns the entries with one level
    of nesting removed (a list entry is replaced by its members in order,
    any other entry is kept), and leaves the file and the log as they were. *)
Theorem snapshot_flattens_and_preserves (h : list json) (l : list event) :
  snapshot (mkWorld (Stored (JArr h)) l)
    = (Ok (splice_one_level h), mkWorld (Stored (JArr h)) l).
Proof.
  rewrite snapshot_stored_list. now rewrite flatten_splice.
Qed.

(** C10: the cap of line 81 counts the entries of the list, before the read
    flattens them: every merge stores the first 1000 entries of the batch
    followed by the history, a nested list counting for one entry.  So a
    file of 1000 entries, each a list of two records, loses its last entry
    to the merge of one more such entry, holds 1000 entries again, and is
    read back as 2000 records. *)
Theorem snapshot_can_exceed_capacity :
  (forall (news h : list json) (l : list event),
      merge WriteOk (JArr news) (mkWorld (Stored (JArr h)) l)
        = (Ok tt, mkWorld (Stored (JArr (firstn 1000 (news ++ h)))) l)
      /\ length (firstn 1000 (news ++ h)) <= 1000
      /\ snapshot (mkWorld (Stored (JArr (firstn 1000 (news ++ h)))) l)
         = (Ok (flatten (firstn 1000 (news ++ h))),
            mkWorld (Stored (JArr (firstn 1000 (news ++ h)))) l))
  /\ exists (news h stored shown : list json),
       length h <= 1000
       /\ Exists (fun entry => is_list entry = true) h
       /\ 1000 < length (news ++ h)
       /\ merge WriteOk (JArr news) (mkWorld (Stored (JArr h)) [])
          = (Ok tt, mkWorld (Stored (JArr stored)) [])
       /\ length stored = 1000
       /\ snapshot (mkWorld (Stored (JArr stored)) [])
          = (Ok shown, mkWorld (Stored (JArr stored)) [])
       /\ 1000 < length shown.
Proof.
  split.
  - intros news h l. split; [apply merge_lists|].
    split; [apply firstn_le_length | apply snapshot_stored_list].
  - set (pair := JArr [record_w1; record_w2]).
    assert (Hcut : forall n m, firstn n (repeat pair (n + m)) = repeat pair n).
    { induction n as [|n IH]; intros m; [reflexivity|].
      cbn [Nat.add repeat firstn]. now rewrite IH. }
    assert (Hfl : forall n, length (flatten (repeat pair n)) = 2 * n).
    { induction n as [|n IH]; [reflexivity|].
      cbn [repeat]. unfold pair at 1. cbn [flatten].
      rewrite length_app, IH. cbn [length]. lia. }
    assert (Hstored : firstn 1000 ([pair] ++ repeat pair 1000) = repeat pair 1000).
    { change ([pair] ++ repeat pair 1000) with (repeat pair (1 + 1000)).
      rewrite (Nat.add_comm 1 1000). apply Hcut. }
    exists [pair], (repeat pair 1000), (repeat pair 1000),
      (flatten (repeat pair 1000)).
    split; [rewrite repeat_length; lia|].
    split; [apply Exists_cons_hd; reflexivity|].
    split; [rewrite length_app, repeat_length; cbn [length]; lia|].
    split; [rewrite merge_lists; unfold capacity; now rewrite Hstored|].
    split; [apply repeat_length|].
    split; [apply snapshot_stored_list|].
    rewrite Hfl. lia.
Qed.

(** ** Shape resolution *)

Lemma resolve_shape_well_data items v :
  dict_lookup "well_data" items = Some v -> resolve_shape (JObj items) = v.
Proof. intros H. cbn [resolve_shape]. now rewrite H. Qed.

Lemma resolve_shape_plain_object items :
  dict_lookup "well_data" items = None ->
  resolve_shape (JObj items) = JArr [JObj items].
Proof. intros H. cbn [resolve_shape]. now rewrite H. Qed.

(** The claim of C3 fails: the list under [well_data] is taken as it is, the
    nested batch stays one composite element. *)
Lemma nested_batch_kept_by_decoder :
  resolve_shape (JObj [("well_data", JArr [JArr [record_w1; record_w2]; record_w3])])
  <> resolve_shape (JArr [record_w1; record_w2; record_w3]).
Proof. cbn. discriminate. Qed.

(** C3, amended: shape resolution does no flattening, the list under
    [well_data] and the bare array are both returned element for element;
    the flattening is done by the read path, which shows a persisted
    [[r1, r2], r3] as [r1, r2, r3], the same as a persisted [r1, r2, r3],
    when none of the three is a list. *)
Theorem flattening_only_at_read (r1 r2 r3 : json) (l : list event) :
  is_list r1 = false -> is_list r2 = false -> is_list r3 = false ->
  (forall candidates,
      resolve_shape (JObj [("well_data", JArr candidates)]) = JArr candidates
      /\ resolve_shape (JArr candidates) = JArr candidates)
  /\ fst (snapshot (mkWorld (Stored (JArr [JArr [r1; r2]; r3])) l)) = Ok [r1; r2; r3]
  /\ fst (snapshot (mkWorld (Stored (JArr [r1; r2; r3])) l)) = Ok [r1; r2; r3].
Proof.
  intros H1 H2 H3.
  split; [intros candidates; split; reflexivity|].
  rewrite !snapshot_stored_list. cbn [fst].
  destruct r1; try discriminate H1;
    destruct r2; try discriminate H2;
      destruct r3; try discriminate H3; split; reflexivity.
Qed.

(** Three well records, one batch nested in the other. *)
Lemma flattening_only_at_read_witness :
  fst (snapshot (mkWorld (Stored (JArr [JArr [record_w1; record_w2]; record_w3])) []))
  = Ok [record_w1; record_w2; record_w3].
Proof.
  exact (proj1 (proj2
    (flattening_only_at_read record_w1 record_w2 record_w3 [] eq_refl eq_refl eq_refl))).
Defined.

(** The claim of C4 fails: under a [well_data] key whose value is not a
    sequence the code takes that value, not the one-element list. *)
Lemma well_data_scalar_taken_as_is :
  let data := JObj [("well_data", JInt 5)] in
  resolve_shape data = JInt 5
  /\ resolve_shape_by_spec data = JArr [data]
  /\ resolve_shape data <> resolve_shape_by_spec data.
Proof. cbn. repeat split. discriminate. Qed.

(** C4, amended: an object with a [well_data] key yields the value under
    that key, whatever its type; otherwise an array yields itself; anything
    else (an object without the key, a string, a number, a boolean, null)
    yields the one-element list of the parsed value.  This is the wording of
    the specification whenever the value under [well_data] is a list. *)
Theorem resolve_shape_priority (data : json) :
  (forall items v,
      data = JObj items -> dict_lookup "well_data" items = Some v ->
      resolve_shape data = v)
  /\ (forall items,
        data = JObj items -> dict_lookup "well_data" items = None ->
        resolve_shape data = JArr [data])
  /\ (forall elements, data = JArr elements -> resolve_shape data = JArr elements)
  /\ (is_dict data = false -> is_list data = false -> resolve_shape data = JArr [data])
  /\ (forall items v,
        data = JObj items -> dict_lookup "well_data" items = Some v ->
        is_list v = true -> resolve_shape data = resolve_shape_by_spec data).
Proof.
  split; [|split; [|split; [|split]]].
  - intros items v -> H. now apply resolve_shape_well_data.
  - intros items -> H. now apply resolve_shape_plain_object.
  - now intros elements ->.
  - intros Hd Hl. destruct data; try reflexivity; discriminate.
  - intros items v -> H Hv. cbn [resolve_shape resolve_shape_by_spec].
    rewrite H. destruct v; try discriminate Hv. reflexivity.
Qed.

(** The three shapes on sample payloads. *)
Lemma resolve_shape_priority_witness :
  resolve_shape (JObj [("count", JInt 1); ("well_data", JArr [record_w1])])
    = JArr [record_w1]
  /\ resolve_shape record_w1 = JArr [record_w1]
  /\ resolve_shape (JStr "W1") = JArr [JStr "W1"].
Proof.
  split; [|split].
  - exact (proj1 (resolve_shape_priority
                    (JObj [("count", JInt 1); ("well_data", JArr [record_w1])]))
             [("count", JInt 1); ("well_data", JArr [record_w1])]
             (JArr [record_w1]) eq_refl eq_refl).
  - exact (proj1 (proj2 (resolve_shape_priority record_w1))
             [("timestamp", JStr "2024-01-01T00:00:00Z"); ("client", JStr "W1");
              ("Oil volume", JInt 50)] eq_refl eq_refl).
  - exact (proj1 (proj2 (proj2 (proj2 (resolve_shape_priority (JStr "W1")))))
             eq_refl eq_refl).
Defined.

(** ** Failing writes *)

(** The claim of C7 fails: a write that fails after [open] has truncated
    the file leaves it without the history it held. *)
Lemma failed_dump_tears_file :
  let w := mkWorld (Stored (JArr [record_w1])) [] in
  fst (merge DumpFails (JArr [record_w2]) w) = Raise OSError
  /\ file (snd (merge DumpFails (JArr [record_w2]) w)) <> file w.
Proof. cbn. split; [reflexivity | discriminate]. Qed.

(** C7, amended: a merge whose write fails raises [OSError] to the
    connection handler instead of returning, and prints nothing; when [open]
    itself fails the file keeps its last written value, and when the failure
    comes after [open] the file is left truncated or partly written. *)
Theorem failed_write_raises (o : write_outcome) (newRecords h : list json)
    (l : list event) :
  o <> WriteOk ->
  let w := mkWorld (Stored (JArr h)) l in
  fst (merge o (JArr newRecords) w) = Raise OSError
  /\ log (snd (merge o (JArr newRecords) w)) = l
  /\ (o = OpenFails -> file (snd (merge o (JArr newRecords) w)) = Stored (JArr h))
  /\ (o = DumpFails -> file (snd (merge o (JArr newRecords) w)) = Torn).
Proof.
  intros Ho w. destruct o; [contradiction | |]; cbn;
    (split; [reflexivity|split; [reflexivity|split]]);
    intros E; (reflexivity || discriminate E).
Qed.

(** Permission denied on a history of one record. *)
Lemma failed_write_raises_witness :
  OpenFails <> WriteOk
  /\ file (snd (merge OpenFails (JArr [record_w2])
                  (mkWorld (Stored (JArr [record_w1])) [])))
     = Stored (JArr [record_w1]).
Proof.
  assert (Hne : OpenFails <> WriteOk) by discriminate.
  split; [exact Hne|].
  exact (proj1 (proj2 (proj2
    (failed_write_raises OpenFails [record_w2] [record_w1] [] Hne))) eq_refl).
Defined.

(** ** Reset *)

(** The claim of C8 fails: a merge that read the file before the reset
    writes the old history back after it, and the next read shows it. *)
Lemma reset_undone_by_merge_in_flight :
  fst (reset_during_merge (JArr [record_w2])
         (mkWorld (Stored (JArr [record_w1])) []))
  = Ok [record_w2; record_w1]
  /\ fst (reset_during_merge (JArr [record_w2])
            (mkWorld (Stored (JArr [record_w1])) []))
     <> Ok [].
Proof. cbn. split; [reflexivity | discriminate]. Qed.

(** C8, amended: a reset whose write succeeds replaces whatever the file
    held by the empty list, and a read that follows it with no write of the
    listener in between returns the empty history; a merge in flight that
    read the file before the reset writes its batch followed by the old
    history after it. *)
Theorem reset_empties_history (w : world) :
  reset WriteOk w = (Ok tt, mkWorld (Stored (JArr [])) (log w))
  /\ (reset WriteOk ;;; snapshot) w = (Ok [], mkWorld (Stored (JArr [])) (log w))
  /\ forall newRecords h,
       file w = Stored (JArr h) ->
       reset_during_merge (JArr newRecords) w
       = (Ok (flatten (firstn 1000 (newRecords ++ h))),
          mkWorld (Stored (JArr (firstn 1000 (newRecords ++ h)))) (log w)).
Proof.
  split; [reflexivity|]. split; [reflexivity|].
  intros newRecords h Hfile. destruct w as [f l]. cbn in Hfile. subst f.
  reflexivity.
Qed.

(** A reset while a merge of one record into a one-record history is in flight. *)
Lemma reset_empties_history_witness :
  fst (reset_during_merge (JArr [record_w2])
         (mkWorld (Stored (JArr [record_w1])) [ErrJsonDecode]))
  = Ok (flatten (firstn 1000 ([record_w2] ++ [record_w1]))).
Proof.
  exact (f_equal fst
    (proj2 (proj2 (reset_empties_history
                     (mkWorld (Stored (JArr [record_w1])) [ErrJsonDecode])))
       [record_w2] [record_w1] eq_refl)).
Defined.

(** ** The listener *)

Lemma forecast_count_dicts records :
  Forall (fun r => is_dict r = true) records ->
  exists k, forecast_count records = Ok k.
Proof.
  induction 1 as [|r rest Hr _ [k IH]]; [now exists 0|].
  destruct r; try discriminate Hr.
  cbn [forecast_count py_get]. rewrite IH.
  destruct (dict_lookup "forecast" items); eauto.
Qed.

Section ListenerProperties.

Variable loads : string -> option json.

(** Runs a connection handler up to the body of the inner [try]. *)
Ltac enter_handler Hrecv Hne :=
  apply String.eqb_neq in Hne;
  unfold handle_connection, try_except, bind, lift; rewrite Hrecv;
  unfold handle_buffer; rewrite Hne;
  unfold try_except, decode_and_merge, bind, lift, json_loads.

Lemma handle_connection_recv_raises o c e w :
  recv_all "" (incoming c) = Raise e ->
  handle_connection loads o c w
  = (Ok tt, mkWorld (file w) (log w ++ [ErrReceiving e])).
Proof.
  intros Hrecv.
  unfold handle_connection, try_except, bind, lift. now rewrite Hrecv.
Qed.

Lemma handle_connection_silent o c w :
  recv_all "" (incoming c) = Ok "" ->
  handle_connection loads o c w = (Ok tt, w).
Proof.
  intros Hrecv.
  unfold handle_connection, try_except, bind, lift. now rewrite Hrecv.
Qed.


Lemma handle_connection_valid c records h l :
  delivers loads c records ->
  exists l',
    handle_connection loads WriteOk c (mkWorld (Stored (JArr h)) l)
    = (Ok tt, mkWorld (Stored (JArr (firstn capacity (records ++ h)))) l').
Proof.
  intros [Hdicts (buffer & data & Hrecv & Hne & Hloads & Hshape)].
  destruct (forecast_count_dicts records Hdicts) as [k Hk].
  enter_handler Hrecv Hne.
  rewrite Hloads, Hshape. cbn [py_len py_iter print]. rewrite Hk.
  destruct (Nat.ltb 0 k); cbn; eauto.
Qed.

Lemma serve_records conns batches :
  Forall2 (delivers loads) conns batches ->
  forall h l,
    length h <= capacity ->
    exists l',
      serve loads (map (pair WriteOk) conns) (mkWorld (Stored (JArr h)) l)
      = (Ok tt,
         mkWorld (Stored (JArr (firstn capacity (concat (rev batches) ++ h)))) l').
Proof.
  induction 1 as [|c b conns batches Hc _ IH]; intros h l Hlen.
  - exists l. cbn [map serve rev concat app]. unfold ret. now rewrite firstn_all2.
  - destruct (handle_connection_valid c b h l Hc) as [l1 H1].
    destruct (IH (firstn capacity (b ++ h)) l1 (firstn_le_length _ _)) as [l2 H2].
    exists l2. cbn [map serve]. unfold bind at 1. rewrite H1. cbv iota. rewrite H2.
    rewrite firstn_app_firstn.
    cbn [rev]. rewrite concat_app. cbn [concat].
    now rewrite app_nil_r, <- app_assoc.
Qed.

(** A payload whose list holds a nested batch is dropped as a whole: line 66
    calls [get] on the inner list, and the outer handler prints the
    [AttributeError]. *)
Lemma handle_connection_nested_batch o c buffer inner rest w :
  recv_all "" (incoming c) = Ok buffer ->
  buffer <> "" ->
  loads buffer = Some (JObj [("well_data", JArr (JArr inner :: rest))]) ->
  handle_connection loads o c w
  = (Ok tt,
     mkWorld (file w)
       (log w ++ [Received (addr c) (S (length rest)); ErrReceiving AttributeError])).
Proof.
  intros Hrecv Hne Hloads.
  enter_handler Hrecv Hne.
  rewrite Hloads. cbn. unfold print. cbn [file log]. now rewrite <- app_assoc.
Qed.

(** A write that fails while a valid payload is merged ends in the outer
    handler, which prints the [OSError]. *)
Lemma handle_connection_write_fails o c records h l :
  o <> WriteOk ->
  delivers loads c records ->
  exists l',
    handle_connection loads o c (mkWorld (Stored (JArr h)) l)
    = (Ok tt,
       mkWorld (match o with DumpFails => Torn | _ => Stored (JArr h) end)
         (l' ++ [ErrReceiving OSError])).
Proof.
  intros Ho [Hdicts (buffer & data & Hrecv & Hne & Hloads & Hshape)].
  destruct (forecast_count_dicts records Hdicts) as [k Hk].
  enter_handler Hrecv Hne.
  rewrite Hloads, Hshape. cbn [py_len py_iter print]. rewrite Hk.
  destruct o; [contradiction | |]; destruct (Nat.ltb 0 k);
    cbn; unfold print; cbn [file log]; eexists; reflexivity.
Qed.


(** C9: [K] connections pending together, each with one record, [K] within
    the capacity, against an empty history: in whatever order [accept] hands
    them over, the listener thread merges them one at a time, and the file
    ends with exactly [K] records, those that were sent, none lost and none
    altered, as the [K] merges applied one after the other in that order
    leave it. *)
Theorem concurrent_merges_keep_every_record (conns order : list connection)
    (records : list json) (l : list event) :
  Forall2 (delivers loads) conns (map (fun r => [r]) records) ->
  length conns <= 1000 ->
  Permutation conns order ->
  let start := mkWorld (Stored (JArr [])) l in
  exists stored served,
    Permutation records served
    /\ Forall2 (delivers loads) order (map (fun r => [r]) served)
    /\ file (snd (serve loads (map (pair WriteOk) order) start))
       = Stored (JArr stored)
    /\ merge_all (map (fun r => [r]) served) start
       = (Ok tt, mkWorld (Stored (JArr stored)) l)
    /\ stored = rev served
    /\ length stored = length conns
    /\ Permutation records stored.
Proof.
  intros Hall Hk Horder start.
  destruct (Permutation_Forall2 Horder Hall) as (batches & Hperm & Hall').
  destruct (Permutation_map_inv _ _ (Permutation_sym Hperm))
    as (served & -> & Hserved).
  assert (Hflat : concat (rev (map (fun r : json => [r]) served)) = rev served).
  { rewrite <- map_rev. induction (rev served) as [|r rs IH]; [reflexivity|].
    cbn [map concat]. now rewrite IH. }
  assert (Hlen : length served = length conns).
  { rewrite <- (Permutation_length Hserved), (Forall2_length Hall).
    symmetry. apply length_map. }
  assert (Hfit : firstn capacity (rev served) = rev served).
  { apply firstn_all2. rewrite length_rev, Hlen. exact Hk. }
  destruct (serve_records _ _ Hall' [] l) as [l' Hserve]; [cbn; lia|].
  exists (rev served), served.
  split; [exact Hserved|]. split; [exact Hall'|].
  split; [|split; [|split; [reflexivity|split]]].
  - unfold start. rewrite Hserve. cbn [snd file].
    now rewrite app_nil_r, Hflat, Hfit.
  - unfold start. rewrite merge_all_from by (cbn; lia).
    now rewrite app_nil_r, Hflat, Hfit.
  - now rewrite length_rev.
  - eapply Permutation_trans; [exact Hserved | apply Permutation_rev].
Qed.

End ListenerProperties.


(** Two producers, each sending one record, the first in two pieces; the
    second is accepted first. *)
Lemma concurrent_merges_keep_every_record_witness :
  let c1 := mkConnection "10.0.0.7:50112" [Chunk "[{"; Chunk "}]"] in
  let c2 := mkConnection "10.0.0.8:50340" [Chunk "{}"] in
  exists stored,
    file (snd (serve sample_loads (map (pair WriteOk) [c2; c1])
                 (mkWorld (Stored (JArr [])) [])))
    = Stored (JArr stored)
    /\ length stored = 2.
Proof.
  intros c1 c2.
  assert (H1 : delivers sample_loads c1 [JObj []]).
  { split; [repeat constructor|].
    exists "[{}]", (JArr [JObj []]).
    repeat split; discriminate. }
  assert (H2 : delivers sample_loads c2 [JObj []]).
  { split; [repeat constructor|].
    exists "{}", (JObj []).
    repeat split; discriminate. }
  assert (Hk : length [c1; c2] <= 1000) by (cbn [length]; lia).
  destruct (concurrent_merges_keep_every_record sample_loads [c1; c2] [c2; c1]
              [JObj []; JObj []] []
              (Forall2_cons _ _ H1 (Forall2_cons _ _ H2 (Forall2_nil _)))
              Hk (perm_swap c2 c1 []))
    as (stored & served & _ & _ & Hfile & _ & _ & Hlen & _).
  exists stored. split; [exact Hfile | exact Hlen].
Defined.

(** * Further properties of the listener *)

(** ** Strings *)

Lemma string_app_assoc (a b c : string) :
  String.append (String.append a b) c = String.append a (String.append b c).
Proof. induction a as [|x a IH]; cbn; [reflexivity | now rewrite IH]. Qed.

Lemma string_app_nil_r (a : string) : String.append a "" = a.
Proof. induction a as [|x a IH]; cbn; [reflexivity | now rewrite IH]. Qed.

Lemma length_chars (s : string) : length (chars s) = String.length s.
Proof. induction s as [|x s IH]; cbn; [reflexivity | now rewrite IH]. Qed.

Lemma py_iter_len v items : py_iter v = Ok items -> py_len v = Ok (length items).
Proof.
  destruct v; cbn; intros H; inversion H; subst; clear H.
  - now rewrite length_chars.
  - reflexivity.
  - now rewrite length_map.
Qed.

(** ** Framing (lines 44-49) *)

Lemma recv_all_chunks pieces :
  Forall (fun p => p <> "") pieces ->
  forall buffer,
    recv_all buffer (map Chunk pieces) = Ok (String.append buffer (join pieces)).
Proof.
  induction 1 as [|p ps Hp _ IH]; intros buffer.
  - cbn. now rewrite string_app_nil_r.
  - cbn [map recv_all join fold_right].
    apply String.eqb_neq in Hp. rewrite Hp, IH.
    now rewrite string_app_assoc.
Qed.

Lemma recv_all_raises pieces e rest :
  Forall (fun p => p <> "") pieces ->
  forall buffer,
    recv_all buffer (map Chunk pieces ++ RecvRaises e :: rest) = Raise e.
Proof.
  induction 1 as [|p ps Hp _ IH]; intros buffer; [reflexivity|].
  cbn [map app recv_all]. apply String.eqb_neq in Hp. now rewrite Hp, IH.
Qed.

Lemma forecast_count_ok records k :
  forecast_count records = Ok k ->
  Forall (fun r => is_dict r = true) records /\ k <= length records.
Proof.
  revert k. induction records as [|r rest IH]; intros k H.
  - inversion H. split; [constructor | reflexivity].
  - cbn [forecast_count] in H.
    destruct r; try discriminate H.
    cbn [py_get] in H.
    destruct (forecast_count rest) as [n|e] eqn:Hrest.
    + destruct (IH n eq_refl) as [Hd Hn].
      split; [constructor; [reflexivity | exact Hd]|].
      cbn [length].
      destruct (dict_lookup "forecast" items) as [v|]; inversion H; subst;
        try destruct (truthy v); lia.
    + destruct (dict_lookup "forecast" items); discriminate H.
Qed.

Lemma forecast_count_non_object records :
  Exists (fun r => is_dict r = false) records ->
  forecast_count records = Raise AttributeError.
Proof.
  induction 1 as [r rest Hr | r rest _ IH].
  - destruct r; try discriminate Hr; reflexivity.
  - cbn [forecast_count]. rewrite IH.
    destruct r; cbn [py_get]; try reflexivity.
    destruct (dict_lookup "forecast" items); reflexivity.
Qed.

Lemma is_ascii_text_app a b :
  is_ascii_text a = true -> is_ascii_text b = true ->
  is_ascii_text (String.append a b) = true.
Proof.
  intros Ha Hb. induction a as [|x a IH]; [exact Hb|].
  cbn [String.append is_ascii_text] in *.
  apply andb_true_iff in Ha. destruct Ha as [Hx Ha].
  now rewrite Hx, IH.
Qed.

Lemma is_ascii_text_join pieces :
  Forall (fun p => is_ascii_text p = true) pieces ->
  is_ascii_text (join pieces) = true.
Proof.
  induction 1 as [|p ps Hp _ IH]; [reflexivity|].
  cbn [join fold_right]. now apply is_ascii_text_app.
Qed.

Section Framing.

Variable loads : string -> option json.

Lemma handle_connection_ok o c w :
  fst (handle_connection loads o c w) = Ok tt.
Proof.
  unfold handle_connection, try_except.
  destruct (bind _ _ w) as [[[]|e] w']; reflexivity.
Qed.

(** X1: for a peer that sends ASCII text and closes, the buffer is the
    concatenation of the pieces that [recv] returned, so two ways of cutting
    the text into non-empty pieces are handled alike.  (Line 46 decodes
    every piece by itself; on ASCII text that is the decoding of the whole,
    wherever the cuts fall.) *)
Theorem chunking_does_not_matter (o : write_outcome) (peer : string)
    (pieces1 pieces2 : list string) (w : world) :
  Forall (fun p => p <> "") pieces1 ->
  Forall (fun p => p <> "") pieces2 ->
  Forall (fun p => is_ascii_text p = true) pieces1 ->
  Forall (fun p => is_ascii_text p = true) pieces2 ->
  join pieces1 = join pieces2 ->
  recv_all "" (map Chunk pieces1) = Ok (join pieces1)
  /\ is_ascii_text (join pieces1) = true
  /\ handle_connection loads o (mkConnection peer (map Chunk pieces1)) w
     = handle_connection loads o (mkConnection peer (map Chunk pieces2)) w.
Proof.
  intros H1 H2 Ha1 Ha2 Hsame.
  split; [now rewrite recv_all_chunks|].
  split; [now apply is_ascii_text_join|].
  unfold handle_connection, bind, lift. cbn [incoming addr].
  now rewrite !recv_all_chunks, Hsame.
Qed.

(** X2: when [recv] raises after some pieces have come in, the pieces are
    dropped: the file is left as it was and the error is printed, whatever
    the text received so far. *)
Theorem recv_error_discards_payload (o : write_outcome) (peer : string)
    (pieces : list string) (e : exn) (rest : list recv_result) (w : world) :
  Forall (fun p => p <> "") pieces ->
  handle_connection loads o
    (mkConnection peer (map Chunk pieces ++ RecvRaises e :: rest)) w
  = (Ok tt, mkWorld (file w) (log w ++ [ErrReceiving e])).
Proof.
  intros Hp.
  unfold handle_connection, try_except, bind, lift. cbn [incoming addr].
  now rewrite recv_all_raises.
Qed.

(** X4: a connection that closes without sending anything is passed over:
    nothing is printed and the file is not touched. *)
Theorem empty_connection_ignored (o : write_outcome) (peer : string)
    (rest : list recv_result) (w : world) :
  handle_connection loads o (mkConnection peer []) w = (Ok tt, w)
  /\ handle_connection loads o (mkConnection peer (Chunk "" :: rest)) w = (Ok tt, w).
Proof. split; reflexivity. Qed.

End Framing.

(** A document cut in two ways. *)
Lemma chunking_does_not_matter_witness :
  handle_connection sample_loads WriteOk
    (mkConnection "10.0.0.7:50112" (map Chunk ["[{"; "}]"])) (mkWorld Missing [])
  = handle_connection sample_loads WriteOk
      (mkConnection "10.0.0.7:50112" (map Chunk ["["; "{}"; "]"])) (mkWorld Missing []).
Proof.
  refine (proj2 (proj2 (chunking_does_not_matter sample_loads WriteOk
                          "10.0.0.7:50112" ["[{"; "}]"] ["["; "{}"; "]"]
                          (mkWorld Missing []) _ _ _ _ eq_refl)));
    repeat constructor; discriminate.
Defined.

(** A connection reset after a complete document came in. *)
Lemma recv_error_discards_payload_witness :
  handle_connection sample_loads WriteOk
    (mkConnection "10.0.0.7:50112" (map Chunk ["[{}]"] ++ [RecvRaises OSError]))
    (mkWorld (Stored (JArr [])) [])
  = (Ok tt, mkWorld (Stored (JArr [])) [ErrReceiving OSError]).
Proof.
  refine (recv_error_discards_payload sample_loads WriteOk "10.0.0.7:50112"
            ["[{}]"] OSError [] (mkWorld (Stored (JArr [])) []) _).
  repeat constructor; discriminate.
Defined.

(** ** What a connection can do to the file *)

Lemma flatten_objects h :
  Forall (fun r => is_dict r = true) h -> flatten h = h.
Proof.
  induction 1 as [|r rest Hr _ IH]; [reflexivity|].
  destruct r; try discriminate Hr. cbn [flatten]. now rewrite IH.
Qed.

Lemma Forall_firstn {A} (P : A -> Prop) n (xs : list A) :
  Forall P xs -> Forall P (firstn n xs).
Proof.
  intros H. rewrite <- (firstn_skipn n xs) in H.
  now apply Forall_app in H.
Qed.

Section Outcomes.

Variable loads : string -> option json.

(** The file after a connection: untouched, torn by a failed write, or the
    whole payload in front of what the file held. *)
Lemma handle_connection_file o c w :
  file (snd (handle_connection loads o c w)) = file w
  \/ exists buffer data records history olds,
       recv_all "" (incoming c) = Ok buffer
       /\ buffer <> ""
       /\ loads buffer = Some data
       /\ py_iter (resolve_shape data) = Ok records
       /\ Forall (fun r => is_dict r = true) records
       /\ load_history (file w) = Ok history
       /\ py_iter history = Ok olds
       /\ ((o = WriteOk
            /\ file (snd (handle_connection loads o c w))
               = Stored (JArr (firstn capacity (records ++ olds))))
           \/ (o = DumpFails
               /\ file (snd (handle_connection loads o c w)) = Torn)).
Proof.
  remember (handle_connection loads o c w) as out eqn:Hout.
  unfold handle_connection, try_except, bind, lift in Hout.
  destruct (recv_all "" (incoming c)) as [buffer|e] eqn:Hrecv;
    [|subst out; now left].
  unfold handle_buffer in Hout.
  destruct (String.eqb buffer "") eqn:Hne; [subst out; now left|].
  apply String.eqb_neq in Hne.
  unfold try_except, decode_and_merge, bind, lift, json_loads in Hout.
  destruct (loads buffer) as [data|] eqn:Hloads; [|subst out; now left].
  destruct (py_len (resolve_shape data)) as [n|e] eqn:Hlen;
    [|subst out; destruct e; now left].
  destruct (py_iter (resolve_shape data)) as [records|e] eqn:Hiter;
    [|subst out; destruct e; now left].
  destruct (forecast_count records) as [k|e] eqn:Hk;
    [|subst out; destruct e; now left].
  destruct (forecast_count_ok records k Hk) as [Hdicts _].
  unfold merge, merge_read, merge_write, get_file, bind, lift, prepend_and_cap in Hout.
  rewrite Hiter in Hout.
  destruct (Nat.ltb 0 k); cbn -[firstn] in Hout;
    (destruct (load_history (file w)) as [history|e] eqn:Hload;
     [|subst out; destruct e; now left]);
    (destruct (py_iter history) as [olds|e] eqn:Hold;
     [|subst out; destruct e; now left]);
    (destruct o; cbn -[firstn] in Hout; subst out; cbn -[firstn];
     [right; exists buffer, data, records, history, olds;
      repeat (split; [assumption || reflexivity|]); left; split; reflexivity
     |now left
     |right; exists buffer, data, records, history, olds;
      repeat (split; [assumption || reflexivity|]); right; split; reflexivity]).
Qed.


Lemma serve_cons o c rest w :
  serve loads ((o, c) :: rest) w
  = serve loads rest (snd (handle_connection loads o c w)).
Proof.
  cbn [serve]. unfold bind.
  pose proof (handle_connection_ok loads o c w) as Hok.
  destruct (handle_connection loads o c w) as [r w'].
  cbn [fst] in Hok. now subst r.
Qed.

Lemma handle_connection_tidy o c w :
  tidy (file w) -> tidy (file (snd (handle_connection loads o c w))).
Proof.
  intros Htidy.
  destruct (handle_connection_file o c w)
    as [-> | (buffer & data & records & history & olds & _ & _ & _ & _
              & Hdicts & Hload & Hold & [[_ ->] | [_ ->]])];
    [exact Htidy | | exact I].
  assert (Holds : length olds <= capacity /\ Forall (fun r => is_dict r = true) olds
                  \/ olds = []).
  { destruct (file w) as [|v|]; cbn in Hload; inversion Hload; subst.
    - cbn in Hold. inversion Hold. now right.
    - destruct history; try contradiction. cbn in Hold. inversion Hold; subst.
      now left. }
  cbn [tidy]. split; [apply firstn_le_length|].
  apply Forall_firstn, Forall_app. split; [exact Hdicts|].
  destruct Holds as [[_ H] | ->]; [exact H | constructor].
Qed.

Lemma serve_tidy conns w :
  tidy (file w) -> tidy (file (snd (serve loads conns w))).
Proof.
  revert w. induction conns as [|[o c] rest IH]; intros w Htidy; [exact Htidy|].
  rewrite serve_cons. now apply IH, handle_connection_tidy.
Qed.

Lemma serve_keeps_file conns w :
  file w <> Missing -> file (snd (serve loads conns w)) <> Missing.
Proof.
  revert w. induction conns as [|[o c] rest IH]; intros w Hw; [exact Hw|].
  rewrite serve_cons. apply IH.
  destruct (handle_connection_file o c w)
    as [-> | (buffer & data & records & history & olds & _ & _ & _ & _ & _
              & _ & _ & [[_ ->] | [_ ->]])];
    [exact Hw | discriminate | discriminate].
Qed.

Lemma handle_connection_torn o c w :
  file w = Torn -> file (snd (handle_connection loads o c w)) = Torn.
Proof.
  intros Htorn.
  destruct (handle_connection_file o c w)
    as [-> | (buffer & data & records & history & olds & _ & _ & _ & _ & _
              & Hload & _)];
    [exact Htorn|].
  rewrite Htorn in Hload. discriminate Hload.
Qed.

Lemma handle_connection_merges c records history olds w :
  delivers loads c records ->
  load_history (file w) = Ok history ->
  py_iter history = Ok olds ->
  exists l',
    handle_connection loads WriteOk c w
    = (Ok tt, mkWorld (Stored (JArr (firstn capacity (records ++ olds)))) l').
Proof.
  intros [Hdicts (buffer & data & Hrecv & Hne & Hloads & Hshape)] Hload Hold.
  apply String.eqb_neq in Hne.
  destruct (forecast_count_dicts records Hdicts) as [k Hk].
  unfold handle_connection, try_except, bind, lift. rewrite Hrecv.
  unfold handle_buffer. rewrite Hne.
  unfold try_except, decode_and_merge, bind, lift, json_loads.
  rewrite Hloads, Hshape. cbn [py_len py_iter print]. rewrite Hk.
  unfold merge, merge_read, merge_write, get_file, bind, lift, prepend_and_cap.
  destruct (Nat.ltb 0 k); cbn -[firstn]; rewrite Hload, Hold;
    cbn -[firstn]; eauto.
Qed.

(** X5: a connection either leaves the history as it was or puts the whole
    payload in front of it: every element of the payload is then a JSON
    object, and no part of a payload is ever merged alone. *)
Theorem payload_merged_whole_or_not_at_all (c : connection) (h : list json)
    (w : world) :
  file w = Stored (JArr h) ->
  file (snd (handle_connection loads WriteOk c w)) = Stored (JArr h)
  \/ exists buffer data records,
       recv_all "" (incoming c) = Ok buffer
       /\ loads buffer = Some data
       /\ py_iter (resolve_shape data) = Ok records
       /\ Forall (fun r => is_dict r = true) records
       /\ file (snd (handle_connection loads WriteOk c w))
          = Stored (JArr (firstn 1000 (records ++ h))).
Proof.
  intros Hfile.
  destruct (handle_connection_file WriteOk c w)
    as [-> | (buffer & data & records & history & olds & Hrecv & _ & Hloads
              & Hiter & Hdicts & Hload & Hold & [[_ ->] | [Ho _]])];
    [now left | | discriminate Ho].
  right. exists buffer, data, records.
  rewrite Hfile in Hload. cbn in Hload. inversion Hload; subst history.
  cbn in Hold. inversion Hold; subst olds.
  repeat (split; [assumption|]). reflexivity.
Qed.

(** X6: one element that is not a JSON object is enough for the whole
    payload to be dropped: the count of the elements is printed, then the
    [AttributeError] of line 66, and the file is left as it was, the
    well-formed records of the payload included. *)
Theorem batch_with_non_object_rejected (o : write_outcome) (c : connection)
    (buffer : string) (data : json) (records : list json) (w : world) :
  recv_all "" (incoming c) = Ok buffer ->
  buffer <> "" ->
  loads buffer = Some data ->
  py_iter (resolve_shape data) = Ok records ->
  Exists (fun r => is_dict r = false) records ->
  handle_connection loads o c w
  = (Ok tt,
     mkWorld (file w)
       (log w ++ [Received (addr c) (length records); ErrReceiving AttributeError])).
Proof.
  intros Hrecv Hne Hloads Hiter Hbad.
  apply String.eqb_neq in Hne.
  unfold handle_connection, try_except, bind, lift. rewrite Hrecv.
  unfold handle_buffer. rewrite Hne.
  unfold try_except, decode_and_merge, bind, lift, json_loads.
  rewrite Hloads, (py_iter_len _ _ Hiter), Hiter.
  rewrite (forecast_count_non_object _ Hbad).
  cbn. unfold print. cbn [file log]. now rewrite <- app_assoc.
Qed.

(** X7: whatever the connections send and however the writes end, the
    listener and the reset keep the file absent, torn, or a list of at most
    1000 entries that are all JSON objects. *)
Theorem listener_keeps_file_tidy (conns : list (write_outcome * connection))
    (o : write_outcome) (w : world) :
  tidy (file w) ->
  tidy (file (snd (serve loads conns w)))
  /\ tidy (file (snd (reset o w)))
  /\ tidy (file (snd ((serve loads conns ;;; reset o) w))).
Proof.
  intros Htidy.
  assert (Hreset : forall w0, tidy (file w0) -> tidy (file (snd (reset o w0)))).
  { intros w0 H0. destruct o; cbn -[capacity];
      [split; [unfold capacity; lia | constructor] | exact H0 | exact I]. }
  split; [now apply serve_tidy|]. split; [now apply Hreset|].
  unfold bind.
  pose proof (serve_tidy conns w Htidy) as Hs.
  destruct (serve loads conns w) as [[[]|e] w']; cbn [snd] in *; auto.
Qed.

(** X8: from an empty history, after any connections and any outcomes of
    the writes, the file is torn or the read returns exactly the entries
    of the file, at most 1000 records: a nested entry, which the read would
    expand, is never written by the listener. *)
Theorem read_after_listener_is_bounded (conns : list (write_outcome * connection))
    (l : list event) :
  let w' := snd (serve loads conns (mkWorld (Stored (JArr [])) l)) in
  file w' = Torn
  \/ exists h,
       file w' = Stored (JArr h)
       /\ fst (snapshot w') = Ok h
       /\ length h <= 1000.
Proof.
  intros w'.
  assert (Htidy : tidy (file w')).
  { apply serve_tidy. cbn. split; [lia | constructor]. }
  assert (Hkept : file w' <> Missing) by (apply serve_keeps_file; discriminate).
  destruct w' as [f l']. cbn [file] in *.
  destruct f as [|v|]; [contradiction | | now left].
  destruct v; try contradiction. destruct Htidy as [Hlen Hd].
  right. exists items. split; [reflexivity|]. split; [|exact Hlen].
  rewrite snapshot_stored_list. cbn [fst]. now rewrite flatten_objects.
Qed.

(** X9: once a failed write has torn the file, every later connection
    leaves it torn; a well-formed payload is then answered with the line of
    the JSON decode error, because it is the history that fails to load; a
    reset that succeeds makes the file an empty history again. *)
Theorem torn_file_blocks_ingestion (conns : list (write_outcome * connection))
    (w : world) :
  file w = Torn ->
  file (snd (serve loads conns w)) = Torn
  /\ (forall o c records,
        delivers loads c records ->
        exists l',
          handle_connection loads o c w
          = (Ok tt, mkWorld Torn (l' ++ [ErrJsonDecode])))
  /\ file (snd (reset WriteOk w)) = Stored (JArr []).
Proof.
  intros Htorn. split; [|split; [|reflexivity]].
  - revert w Htorn. induction conns as [|[o c] rest IH]; intros w Htorn;
      [exact Htorn|].
    rewrite serve_cons. now apply IH, handle_connection_torn.
  - intros o c records [Hdicts (buffer & data & Hrecv & Hne & Hloads & Hshape)].
    apply String.eqb_neq in Hne.
    destruct (forecast_count_dicts records Hdicts) as [k Hk].
    unfold handle_connection, try_except, bind, lift. rewrite Hrecv.
    unfold handle_buffer. rewrite Hne.
    unfold try_except, decode_and_merge, bind, lift, json_loads.
    rewrite Hloads, Hshape. cbn [py_len py_iter print]. rewrite Hk.
    unfold merge, merge_read, merge_write, get_file, bind, lift.
    destruct (Nat.ltb 0 k); cbn -[firstn]; rewrite Htorn;
      cbn -[firstn]; unfold print; cbn [file log];
      eexists; reflexivity.
Qed.

(** X10: the listener takes an absent file for an empty history: the first
    payload that is merged creates the file with its records, cut to 1000. *)
Theorem missing_file_is_empty_history (c : connection) (records : list json)
    (l : list event) :
  delivers loads c records ->
  file (snd (handle_connection loads WriteOk c (mkWorld Missing l)))
  = Stored (JArr (firstn 1000 records))
  /\ file (snd (handle_connection loads WriteOk c (mkWorld Missing l)))
     = file (snd (handle_connection loads WriteOk c (mkWorld (Stored (JArr [])) l))).
Proof.
  intros Hc.
  destruct (handle_connection_merges c records (JArr []) [] (mkWorld Missing l)
              Hc eq_refl eq_refl) as [l1 ->].
  destruct (handle_connection_merges c records (JArr []) []
              (mkWorld (Stored (JArr [])) l) Hc eq_refl eq_refl) as [l2 ->].
  cbn [snd file]. rewrite app_nil_r. split; reflexivity.
Qed.

(** X11: what the connections deliver is what the display reads: after the
    payloads of [conns] have been merged into an empty history, the read
    returns their records unchanged, the latest payload first, cut to the
    first 1000. *)
Theorem ingest_then_read (conns : list connection) (batches : list (list json))
    (l : list event) :
  Forall2 (delivers loads) conns batches ->
  fst ((serve loads (map (pair WriteOk) conns) ;;; snapshot)
         (mkWorld (Stored (JArr [])) l))
  = Ok (firstn 1000 (concat (rev batches))).
Proof.
  intros Hall.
  destruct (serve_records loads conns batches Hall [] l) as [l' Hserve];
    [cbn; lia|].
  unfold bind. rewrite Hserve. rewrite snapshot_stored_list. cbn [fst].
  rewrite app_nil_r. f_equal. apply flatten_objects, Forall_firstn.
  apply Forall_concat, Forall_rev.
  clear Hserve. induction Hall as [|c b cs bs [Hd _] _ IH]; constructor; assumption.
Qed.

End Outcomes.

Lemma sample_connection_delivers peer :
  delivers sample_loads (mkConnection peer [Chunk "[{}]"]) [JObj []].
Proof.
  split; [repeat constructor|].
  exists "[{}]", (JArr [JObj []]). repeat split. discriminate.
Qed.

(** One record sent to a history of one record. *)
Lemma payload_merged_whole_or_not_at_all_witness :
  let c := mkConnection "10.0.0.7:50112" [Chunk "[{}]"] in
  let w := mkWorld (Stored (JArr [record_w1])) [] in
  file (snd (handle_connection sample_loads WriteOk c w)) = Stored (JArr [record_w1])
  \/ exists buffer data records,
       recv_all "" (incoming c) = Ok buffer
       /\ sample_loads buffer = Some data
       /\ py_iter (resolve_shape data) = Ok records
       /\ Forall (fun r => is_dict r = true) records
       /\ file (snd (handle_connection sample_loads WriteOk c w))
          = Stored (JArr (firstn 1000 (records ++ [record_w1]))).
Proof.
  intros c w.
  exact (payload_merged_whole_or_not_at_all sample_loads c [record_w1] w eq_refl).
Defined.

(** A record and a number in one payload. *)
Lemma batch_with_non_object_rejected_witness :
  let c := mkConnection "10.0.0.7:50112" [Chunk "[{}, 5]"] in
  let w := mkWorld (Stored (JArr [record_w1])) [] in
  handle_connection sample_loads_mixed WriteOk c w
  = (Ok tt,
     mkWorld (Stored (JArr [record_w1]))
       [Received "10.0.0.7:50112" 2; ErrReceiving AttributeError]).
Proof.
  intros c w.
  refine (batch_with_non_object_rejected sample_loads_mixed WriteOk c "[{}, 5]"
            (JArr [JObj []; JInt 5]) [JObj []; JInt 5] w
            eq_refl _ eq_refl eq_refl _).
  - discriminate.
  - apply Exists_cons_tl, Exists_cons_hd. reflexivity.
Defined.

(** A write that fails on an empty history. *)
Lemma listener_keeps_file_tidy_witness :
  let c := mkConnection "10.0.0.7:50112" [Chunk "[{}]"] in
  tidy (file (snd (serve sample_loads [(DumpFails, c)]
                     (mkWorld (Stored (JArr [])) [])))).
Proof.
  intros c.
  refine (proj1 (listener_keeps_file_tidy sample_loads [(DumpFails, c)] WriteOk
                   (mkWorld (Stored (JArr [])) []) _)).
  split; [apply Nat.le_0_l | constructor].
Defined.

(** A record sent after the file was torn. *)
Lemma torn_file_blocks_ingestion_witness :
  let c := mkConnection "10.0.0.7:50112" [Chunk "[{}]"] in
  file (snd (serve sample_loads [(WriteOk, c)] (mkWorld Torn []))) = Torn.
Proof.
  intros c.
  exact (proj1 (torn_file_blocks_ingestion sample_loads [(WriteOk, c)]
                  (mkWorld Torn []) eq_refl)).
Defined.

(** The first record that arrives when there is no file. *)
Lemma missing_file_is_empty_history_witness :
  file (snd (handle_connection sample_loads WriteOk
               (mkConnection "10.0.0.7:50112" [Chunk "[{}]"]) (mkWorld Missing [])))
  = Stored (JArr (firstn 1000 [JObj []])).
Proof.
  exact (proj1 (missing_file_is_empty_history sample_loads _ [JObj []] []
                  (sample_connection_delivers "10.0.0.7:50112"))).
Defined.

(** Two producers, one record each. *)
Lemma ingest_then_read_witness :
  fst ((serve sample_loads
          (map (pair WriteOk)
             [mkConnection "10.0.0.7:50112" [Chunk "[{}]"];
              mkConnection "10.0.0.8:50340" [Chunk "[{}]"]]) ;;; snapshot)
         (mkWorld (Stored (JArr [])) []))
  = Ok (firstn 1000 (concat (rev [[JObj []]; [JObj []]]))).
Proof.
  exact (ingest_then_read sample_loads _ [[JObj []]; [JObj []]] []
           (Forall2_cons _ _ (sample_connection_delivers "10.0.0.7:50112")
              (Forall2_cons _ _ (sample_connection_delivers "10.0.0.8:50340")
                 (Forall2_nil _)))).
Defined.

(** ** Status flags *)

Lemma contains_unfold needle hay :
  contains needle hay
  = if String.prefix needle hay then true
    else match hay with
         | EmptyString => false
         | String _ rest => contains needle rest
         end.
Proof. destruct hay; reflexivity. Qed.

Lemma prefix_app needle hay after :
  String.prefix needle hay = true ->
  String.prefix needle (String.append hay after) = true.
Proof.
  revert hay. induction needle as [|a needle IH]; intros hay H.
  - destruct (String.append hay after); reflexivity.
  - destruct hay as [|b hay]; [discriminate H|].
    cbn in *. destruct (ascii_dec a b); [now apply IH | discriminate H].
Qed.

Lemma contains_app_r needle hay after :
  contains needle hay = true ->
  contains needle (String.append hay after) = true.
Proof.
  induction hay as [|b hay IH]; intros H; rewrite contains_unfold in H |- *.
  - destruct (String.prefix needle "") eqn:Hp; [|discriminate H].
    now rewrite (prefix_app _ _ after Hp).
  - destruct (String.prefix needle (String b hay)) eqn:Hp.
    + now rewrite (prefix_app _ _ after Hp).
    + cbn [String.append].
      destruct (String.prefix needle (String b (String.append hay after)));
        [reflexivity | now apply IH].
Qed.

Lemma contains_app_l needle before hay :
  contains needle hay = true ->
  contains needle (String.append before hay) = true.
Proof.
  intros H. induction before as [|b before IH]; [exact H|].
  cbn [String.append]. rewrite contains_unfold.
  now destruct (String.prefix needle (String b (String.append before hay))).
Qed.

Lemma contains_embedded needle before hay after :
  contains needle hay = true ->
  contains needle (String.append before (String.append hay after)) = true.
Proof. intros H. now apply contains_app_l, contains_app_r. Qed.

Lemma flag_rank_tests s :
  flag_rank (get_status_flag (JStr s))
  = rank_of_tests (contains "Critical" s)
      (contains "Warning" s || contains "High" s || contains "Low" s)
      (contains "Concerning" s || contains "Caution" s)
      (contains "Normal" s || contains "Optimal" s
       || contains "Excellent" s || contains "Healthy" s).
Proof.
  unfold get_status_flag.
  destruct (contains "Critical" s); [reflexivity|].
  destruct (contains "Warning" s || contains "High" s || contains "Low" s);
    [reflexivity|].
  destruct (contains "Concerning" s || contains "Caution" s); [reflexivity|].
  destruct (contains "Normal" s || contains "Optimal" s
            || contains "Excellent" s || contains "Healthy" s); reflexivity.
Qed.

(** X12: a status with [Critical] in it is red whatever else it says, and
    text put before or after a status never makes its flag less alarming. *)
Theorem status_flag_monotone (s before after : string) :
  (contains "Critical" s = true -> get_status_flag (JStr s) = flag_critical)
  /\ flag_rank (get_status_flag (JStr s))
     <= flag_rank (get_status_flag
                     (JStr (String.append before (String.append s after)))).
Proof.
  split.
  - intros H. unfold get_status_flag. now rewrite H.
  - rewrite !flag_rank_tests.
    set (t := String.append before (String.append s after)).
    assert (Hmono : forall k, contains k s = true -> contains k t = true)
      by (intros k; apply contains_embedded).
    pose proof (Hmono "Critical") as H1. pose proof (Hmono "Warning") as H2.
    pose proof (Hmono "High") as H3. pose proof (Hmono "Low") as H4.
    pose proof (Hmono "Concerning") as H5. pose proof (Hmono "Caution") as H6.
    pose proof (Hmono "Normal") as H7. pose proof (Hmono "Optimal") as H8.
    pose proof (Hmono "Excellent") as H9. pose proof (Hmono "Healthy") as H10.
    clear Hmono.
    destruct (contains "Critical" t); [unfold rank_of_tests;
      repeat match goal with |- context [if ?b then _ else _] => destruct b end; lia|].
    destruct (contains "Critical" s); [discriminate (H1 eq_refl)|].
    destruct (contains "Warning" s); [rewrite (H2 eq_refl); cbn; lia|].
    destruct (contains "High" s);
      [rewrite (H3 eq_refl), !orb_true_r; cbn; lia|].
    destruct (contains "Low" s);
      [rewrite (H4 eq_refl), !orb_true_r; cbn; lia|].
    cbn [orb].
    destruct (contains "Warning" t || contains "High" t || contains "Low" t);
      [unfold rank_of_tests;
       repeat match goal with |- context [if ?b then _ else _] => destruct b end; lia|].
    destruct (contains "Concerning" s); [rewrite (H5 eq_refl); cbn; lia|].
    destruct (contains "Caution" s);
      [rewrite (H6 eq_refl), !orb_true_r; cbn; lia|].
    cbn [orb].
    destruct (contains "Concerning" t || contains "Caution" t);
      [unfold rank_of_tests;
       repeat match goal with |- context [if ?b then _ else _] => destruct b end; lia|].
    destruct (contains "Normal" s); [rewrite (H7 eq_refl); cbn; lia|].
    destruct (contains "Optimal" s);
      [rewrite (H8 eq_refl), !orb_true_r; cbn; lia|].
    destruct (contains "Excellent" s);
      [rewrite (H9 eq_refl), !orb_true_r; cbn; lia|].
    destruct (contains "Healthy" s);
      [rewrite (H10 eq_refl), !orb_true_r; cbn; lia|].
    cbn. lia.
Qed.

(** A status that names two conditions. *)
Lemma status_flag_monotone_witness :
  contains "Critical" "Critical Low" = true
  /\ get_status_flag (JStr "Critical Low") = flag_critical.
Proof.
  assert (H : contains "Critical" "Critical Low" = true) by reflexivity.
  split; [exact H|].
  exact (proj1 (status_flag_monotone "Critical Low" "" "") H).
Defined.

(** X13: the white flag is given exactly to what is not a string and to the
    strings that hold none of the ten words, as written, capitals included;
    the default status [Unknown] is one of them. *)
Theorem unknown_flag_characterised (status : json) :
  get_status_flag status = flag_unknown
  <-> forall s, status = JStr s ->
        Forall (fun word => contains word s = false) status_words.
Proof.
  split.
  - intros H s ->. unfold get_status_flag in H.
    destruct (contains "Critical" s) eqn:H1; [discriminate H|].
    destruct (contains "Warning" s) eqn:H2; [discriminate H|].
    destruct (contains "High" s) eqn:H3; [discriminate H|].
    destruct (contains "Low" s) eqn:H4; [discriminate H|].
    destruct (contains "Concerning" s) eqn:H5; [discriminate H|].
    destruct (contains "Caution" s) eqn:H6; [discriminate H|].
    destruct (contains "Normal" s) eqn:H7; [discriminate H|].
    destruct (contains "Optimal" s) eqn:H8; [discriminate H|].
    destruct (contains "Excellent" s) eqn:H9; [discriminate H|].
    destruct (contains "Healthy" s) eqn:H10; [discriminate H|].
    unfold status_words. repeat constructor; assumption.
  - intros H. destruct status; try reflexivity.
    specialize (H s eq_refl). unfold status_words in H.
    repeat match goal with
           | H : Forall _ (_ :: _) |- _ => inversion H; subst; clear H
           end.
    unfold get_status_flag.
    repeat match goal with
           | H : contains _ s = false |- _ => rewrite H; clear H
           end.
    reflexivity.
Qed.

(** The default status of a missing key. *)
Lemma unknown_flag_characterised_witness :
  get_status_flag (JStr "Unknown") = flag_unknown.
Proof.
  apply (proj2 (unknown_flag_characterised (JStr "Unknown"))).
  intros s H. injection H as <-. repeat constructor.
Defined.

(** ** The control surface and the display *)

Lemma snapshot_world w : snd (snapshot w) = w.
Proof.
  unfold snapshot, bind, get_file.
  destruct (file w) as [|v|]; try reflexivity.
  unfold lift. destruct (py_iter v); reflexivity.
Qed.

Lemma snapshot_not_oserror w :
  file w <> Missing -> fst (snapshot w) <> Raise OSError.
Proof.
  intros Hw. unfold snapshot, bind, get_file.
  destruct (file w) as [|v|]; [contradiction | | discriminate].
  unfold lift. destruct v; discriminate.
Qed.

Lemma display_world s w : snd (display s w) = w.
Proof.
  unfold display.
  destruct (session_get (server_active s) && negb (session_get (cleared s))).
  - pose proof (snapshot_world w) as H.
    destruct (snapshot w) as [[d|e] w0]; exact H.
  - destruct (session_get (cleared s)); reflexivity.
Qed.

Lemma create_if_missing_cases o w :
  (file w <> Missing /\ create_if_missing o w = (Ok tt, w))
  \/ (file w = Missing /\ o = WriteOk
      /\ create_if_missing o w = (Ok tt, mkWorld (Stored (JArr [])) (log w)))
  \/ (file w = Missing /\ o <> WriteOk
      /\ fst (create_if_missing o w) = Raise OSError).
Proof.
  unfold create_if_missing, bind, get_file.
  destruct (file w) eqn:Hf.
  - destruct o; [right; left | right; right | right; right];
      repeat split; try reflexivity; discriminate.
  - left. split; [discriminate | reflexivity].
  - left. split; [discriminate | reflexivity].
Qed.

(** X14: once a reset has set the [cleared] flag of a session, no run of
    the script in that session shows the dashboard again, whatever is
    clicked and whatever the listener has put in the file since: the flag
    stays, and the page is the notice of line 523 unless the run ends in an
    exception. *)
Theorem cleared_session_never_shows_data (o_create o_reset : write_outcome)
    (c : click) (s s' : session) (r : result view) (w w' : world) :
  cleared s = Some true ->
  run_script o_create o_reset c s w = (s', r, w') ->
  cleared s' = Some true /\ (r = Ok ShowCleared \/ exists e, r = Raise e).
Proof.
  intros Hc Hrun. unfold run_script in Hrun.
  assert (Hc1 : cleared (init_session s) = Some true).
  { unfold init_session. now destruct (server_active s). }
  destruct (create_if_missing o_create w) as [[[]|e] w1].
  2:{ inversion Hrun; subst. split; [exact Hc1 | right; now exists e]. }
  assert (Hshow : forall s2 w2, cleared s2 = Some true ->
                                fst (display s2 w2) = ShowCleared).
  { intros s2 w2 H2. unfold display. rewrite H2. cbn [session_get negb].
    now rewrite andb_false_r. }
  destruct c; cbn [press] in Hrun.
  - pose proof (Hshow (init_session s) w1 Hc1) as Hv.
    destruct (display (init_session s) w1) as [v w3]. cbn [fst] in Hv.
    inversion Hrun; subst. split; [exact Hc1 | now left].
  - pose proof (Hshow (mkSession (Some true) (cleared (init_session s))) w1 Hc1) as Hv.
    destruct (display _ w1) as [v w3]. cbn [fst] in Hv.
    inversion Hrun; subst. split; [exact Hc1 | now left].
  - pose proof (Hshow (mkSession (Some false) (cleared (init_session s))) w1 Hc1) as Hv.
    destruct (display _ w1) as [v w3]. cbn [fst] in Hv.
    inversion Hrun; subst. split; [exact Hc1 | now left].
  - destruct (reset o_reset w1) as [[[]|e] w2].
    + pose proof (Hshow (mkSession (server_active (init_session s)) (Some true))
                    w2 eq_refl) as Hv.
      destruct (display _ w2) as [v w3]. cbn [fst] in Hv.
      inversion Hrun; subst. split; [reflexivity | now left].
    + inversion Hrun; subst. split; [exact Hc1 | right; now exists e].
Qed.

(** A click on Start in a session that was cleared before. *)
Lemma cleared_session_never_shows_data_witness :
  fst (fst (run_script WriteOk WriteOk ClickStart
              (mkSession (Some false) (Some true))
              (mkWorld (Stored (JArr [record_w1])) [])))
  = mkSession (Some true) (Some true)
  /\ cleared (mkSession (Some true) (Some true)) = Some true.
Proof.
  split; [reflexivity|].
  exact (proj1 (cleared_session_never_shows_data WriteOk WriteOk ClickStart
                  (mkSession (Some false) (Some true))
                  (mkSession (Some true) (Some true)) (Ok ShowCleared)
                  (mkWorld (Stored (JArr [record_w1])) [])
                  (mkWorld (Stored (JArr [record_w1])) [])
                  eq_refl eq_refl)).
Defined.

(** X15: a click on Reset whose writes succeed empties the file, sets the
    [cleared] flag and shows the notice of line 523 in the same run, also
    when the dashboard was active. *)
Theorem reset_click_clears (o_create : write_outcome) (s : session) (w : world) :
  o_create = WriteOk \/ file w <> Missing ->
  run_script o_create WriteOk ClickReset s w
  = (mkSession (server_active (init_session s)) (Some true),
     Ok ShowCleared,
     mkWorld (Stored (JArr [])) (log w)).
Proof.
  intros Hcreate. unfold run_script.
  destruct (create_if_missing_cases o_create w)
    as [[_ ->] | [(_ & _ & ->) | (Hm & Ho & _)]].
  - cbn. unfold display. cbn [cleared session_get negb].
    now rewrite andb_false_r.
  - cbn. unfold display. cbn [cleared session_get negb].
    now rewrite andb_false_r.
  - destruct Hcreate; contradiction.
Qed.

(** Reset on an active dashboard with a record in the file. *)
Lemma reset_click_clears_witness :
  snd (fst (run_script OpenFails WriteOk ClickReset
              (mkSession (Some true) None)
              (mkWorld (Stored (JArr [record_w1])) [])))
  = Ok ShowCleared.
Proof.
  assert (H : OpenFails = WriteOk
              \/ file (mkWorld (Stored (JArr [record_w1])) []) <> Missing)
    by (right; discriminate).
  exact (f_equal (fun x => snd (fst x))
           (reset_click_clears OpenFails (mkSession (Some true) None)
              (mkWorld (Stored (JArr [record_w1])) []) H)).
Defined.

(** X16: a new session starts inactive, and the dashboard is on the page
    only when, after the click of the run, [server_active] is set and
    [cleared] is not: never in the run of a click on Stop or on Reset; the
    data are then what the read of the file returns. *)
Theorem dashboard_shown_only_when_active (o_create o_reset : write_outcome)
    (c : click) (s s' : session) (d : list json) (w w' : world) :
  (file w <> Missing ->
   run_script o_create o_reset NoClick (mkSession None None) w
   = (mkSession (Some false) None, Ok ShowInactive, w))
  /\ (run_script o_create o_reset c s w = (s', Ok (ShowDashboard d), w') ->
      server_active s' = Some true
      /\ session_get (cleared s') = false
      /\ c <> ClickStop /\ c <> ClickReset
      /\ snapshot w' = (Ok d, w')).
Proof.
  split.
  - intros Hw. unfold run_script.
    destruct (create_if_missing_cases o_create w)
      as [[_ ->] | [(Hm & _) | (Hm & _)]]; [reflexivity | contradiction..].
  - intros Hrun. unfold run_script in Hrun.
    destruct (create_if_missing o_create w) as [[[]|e] w1]; [|discriminate Hrun].
    assert (Hgate : forall s2 w2 v w3,
               display s2 w2 = (v, w3) -> v = ShowDashboard d ->
               server_active s2 = Some true
               /\ session_get (cleared s2) = false
               /\ snapshot w3 = (Ok d, w3)).
    { intros s2 w2 v w3 Hd ->. unfold display in Hd.
      destruct (session_get (server_active s2)) eqn:Ha; cbn [andb] in Hd.
      - destruct (session_get (cleared s2)) eqn:Hcl; cbn [negb] in Hd;
          [discriminate Hd|].
        pose proof (snapshot_world w2) as Hsw.
        destruct (snapshot w2) as [[d0|e] w0] eqn:Hs; cbn [snd] in Hsw; subst w0;
          inversion Hd; subst.
        destruct (server_active s2) as [[]|]; try discriminate Ha.
        repeat split; assumption.
      - destruct (session_get (cleared s2)); discriminate Hd. }
    destruct c; cbn [press] in Hrun.
    + destruct (display (init_session s) w1) as [v w3] eqn:Hd.
      inversion Hrun; subst.
      destruct (Hgate _ _ _ _ Hd eq_refl) as (Ha & Hcl & Hs).
      repeat split; try assumption; discriminate.
    + destruct (display _ w1) as [v w3] eqn:Hd.
      inversion Hrun; subst.
      destruct (Hgate _ _ _ _ Hd eq_refl) as (Ha & Hcl & Hs).
      repeat split; try assumption; discriminate.
    + destruct (display _ w1) as [v w3] eqn:Hd.
      inversion Hrun; subst.
      destruct (Hgate _ _ _ _ Hd eq_refl) as (Ha & _). discriminate Ha.
    + destruct (reset o_reset w1) as [[[]|e] w2]; [|discriminate Hrun].
      destruct (display _ w2) as [v w3] eqn:Hd.
      inversion Hrun; subst.
      destruct (Hgate _ _ _ _ Hd eq_refl) as (_ & Hcl & _). discriminate Hcl.
Qed.

(** A timer tick in an active session over a file of two records. *)
Lemma dashboard_shown_only_when_active_witness :
  let w := mkWorld (Stored (JArr [record_w2; record_w1])) [] in
  run_script WriteOk WriteOk NoClick (mkSession (Some true) None) w
    = (mkSession (Some true) None, Ok (ShowDashboard [record_w2; record_w1]), w)
  /\ snapshot w = (Ok [record_w2; record_w1], w).
Proof.
  intros w. split; [reflexivity|].
  exact (proj2 (proj2 (proj2 (proj2
    (proj2 (dashboard_shown_only_when_active WriteOk WriteOk NoClick
              (mkSession (Some true) None) (mkSession (Some true) None)
              [record_w2; record_w1] w w) eq_refl))))).
Defined.

(** X17: a run of the script without a click on Reset, over a file that
    exists, leaves the file and the log exactly as they were: the display
    only reads. *)
Theorem script_reads_without_writing (o_create o_reset : write_outcome)
    (c : click) (s : session) (w : world) :
  c <> ClickReset ->
  file w <> Missing ->
  snd (run_script o_create o_reset c s w) = w.
Proof.
  intros Hc Hw. unfold run_script.
  destruct (create_if_missing_cases o_create w)
    as [[_ ->] | [(Hm & _) | (Hm & _)]]; [|contradiction..].
  destruct c; try contradiction; cbn [press];
    match goal with
    | |- context [display ?s2 w] =>
        pose proof (display_world s2 w) as Hd;
        destruct (display s2 w) as [v w3]; exact Hd
    end.
Qed.

(** A click on Stop over a file of one record. *)
Lemma script_reads_without_writing_witness :
  snd (run_script DumpFails DumpFails ClickStop (mkSession (Some true) None)
         (mkWorld (Stored (JArr [record_w1])) [ErrJsonDecode]))
  = mkWorld (Stored (JArr [record_w1])) [ErrJsonDecode].
Proof.
  apply script_reads_without_writing; discriminate.
Defined.

(** X18: when a run of the script gets to its end the history file exists,
    so the page never reports a missing file: a file that is absent is
    created by lines 27-29 before anything reads it, or the run stops
    there. *)
Theorem completed_run_leaves_a_file (o_create o_reset : write_outcome)
    (c : click) (s s' : session) (v : view) (w w' : world) :
  run_script o_create o_reset c s w = (s', Ok v, w') ->
  file w' <> Missing /\ v <> ShowLoadError OSError.
Proof.
  intros Hrun. unfold run_script in Hrun.
  assert (Hshow : forall s2 w2 v2 w3,
             file w2 <> Missing -> display s2 w2 = (v2, w3) ->
             file w3 <> Missing /\ v2 <> ShowLoadError OSError).
  { intros s2 w2 v2 w3 H2 Hd.
    pose proof (display_world s2 w2) as Hsame. rewrite Hd in Hsame.
    cbn [snd] in Hsame. subst w3. split; [exact H2|].
    unfold display in Hd.
    destruct (session_get (server_active s2) && negb (session_get (cleared s2))).
    - pose proof (snapshot_not_oserror w2 H2) as Hne.
      destruct (snapshot w2) as [[d|e] w0]; inversion Hd; subst;
        [discriminate|].
      intros Heq. inversion Heq; subst. now apply Hne.
    - destruct (session_get (cleared s2)); inversion Hd; discriminate. }
  destruct (create_if_missing_cases o_create w)
    as [[Hw Hcr] | [(Hm & _ & Hcr) | (Hm & Ho & Hcr)]].
  - rewrite Hcr in Hrun.
    destruct c; cbn [press] in Hrun.
    1-3: destruct (display _ w) as [v2 w3] eqn:Hd; inversion Hrun; subst;
         now apply (Hshow _ _ _ _ Hw Hd).
    destruct o_reset; cbn in Hrun; try discriminate Hrun.
    match type of Hrun with
    | context [display ?s2 ?w2] =>
        destruct (display s2 w2) as [v2 w3] eqn:Hd; inversion Hrun; subst;
        apply Hshow in Hd; [exact Hd | discriminate]
    end.
  - rewrite Hcr in Hrun.
    destruct c; cbn [press] in Hrun.
    1-3: match type of Hrun with
         | context [display ?s2 ?w2] =>
             destruct (display s2 w2) as [v2 w3] eqn:Hd; inversion Hrun; subst;
             apply Hshow in Hd; [exact Hd | discriminate]
         end.
    destruct o_reset; cbn in Hrun; try discriminate Hrun.
    match type of Hrun with
    | context [display ?s2 ?w2] =>
        destruct (display s2 w2) as [v2 w3] eqn:Hd; inversion Hrun; subst;
        apply Hshow in Hd; [exact Hd | discriminate]
    end.
  - destruct (create_if_missing o_create w) as [[[]|e] w1];
      [discriminate Hcr | discriminate Hrun].
Qed.

(** The first run of the script, with no file yet. *)
Lemma completed_run_leaves_a_file_witness :
  file (snd (run_script WriteOk WriteOk ClickStart (mkSession None None)
               (mkWorld Missing [])))
  <> Missing.
Proof.
  exact (proj1 (completed_run_leaves_a_file WriteOk WriteOk ClickStart
                  (mkSession None None) (mkSession (Some true) None)
                  (ShowDashboard []) (mkWorld Missing [])
                  (mkWorld (Stored (JArr [])) []) eq_refl)).
Defined.

(** ** The count of forecast alerts *)

Lemma count_forecast_alerts_texts texts :
  count_forecast_alerts (map JStr texts)
  = Ok (length (filter (contains "FORECAST") texts)).
Proof.
  induction texts as [|t rest IH]; [reflexivity|].
  cbn [map count_forecast_alerts py_in filter]. rewrite IH.
  destruct (contains "FORECAST" t); reflexivity.
Qed.

(** X19: over records that are objects whose alerts, when there are any,
    are a list of texts, the count is the number of texts with [FORECAST] in
    them; a record without an [alerts] key adds nothing and raises nothing. *)
Theorem total_forecast_alerts_counts (flattened_data : list json)
    (texts : list (list string)) :
  Forall2 has_alerts flattened_data texts ->
  total_forecast_alerts flattened_data
  = Ok (length (filter (contains "FORECAST") (concat texts))).
Proof.
  induction 1 as [|record ts data tss (items & -> & Halerts) _ IH];
    [reflexivity|].
  cbn [total_forecast_alerts get_alerts concat].
  rewrite filter_app, length_app.
  destruct Halerts as [[-> ->] | ->].
  - cbn [py_iter count_forecast_alerts]. rewrite IH. reflexivity.
  - cbn [py_iter]. rewrite count_forecast_alerts_texts, IH. reflexivity.
Qed.

(** One record with two alerts and one without the key. *)
Lemma total_forecast_alerts_counts_witness :
  total_forecast_alerts
    [JObj [("client", JStr "W1");
           ("alerts", JArr [JStr "FORECAST ALERT: water cut rising";
                            JStr "WARNING: low pressure"])];
     record_w2]
  = Ok 1.
Proof.
  refine (total_forecast_alerts_counts _
            [["FORECAST ALERT: water cut rising"; "WARNING: low pressure"]; []] _).
  repeat constructor.
  - eexists. split; [reflexivity|]. right. reflexivity.
  - eexists. split; [reflexivity|]. left. split; reflexivity.
Defined.

(** ** Alert banners *)

Lemma contains_in_alert_line word timestamp client alert :
  contains word client = true \/ contains word alert = true ->
  contains word (alert_line timestamp client alert) = true.
Proof.
  unfold alert_line. intros [H | H].
  - apply contains_app_l, contains_app_l, contains_app_l. now apply contains_app_r.
  - now repeat apply contains_app_l.
Qed.

(** X20: the banner is chosen on the whole line, so [CRITICAL] in the name
    of the client as well as in the text of the alert makes it an error in
    both lists, and [ALERT] does so among the forecast alerts; a line is
    never shown milder among the forecast alerts than the same line would be
    among the current ones. *)
Theorem alert_banner_reads_whole_line (timestamp client alert : string) :
  let line := alert_line timestamp client alert in
  (contains "CRITICAL" client = true \/ contains "CRITICAL" alert = true ->
   forecast_banner line = StError /\ current_banner line = StError)
  /\ (contains "ALERT" client = true \/ contains "ALERT" alert = true ->
      forecast_banner line = StError)
  /\ banner_rank (current_banner line) <= banner_rank (forecast_banner line).
Proof.
  intros line. split; [|split].
  - intros H.
    pose proof (contains_in_alert_line "CRITICAL" timestamp client alert H) as Hc.
    fold line in Hc. unfold forecast_banner, current_banner. now rewrite Hc.
  - intros H.
    pose proof (contains_in_alert_line "ALERT" timestamp client alert H) as Hc.
    fold line in Hc. unfold forecast_banner. rewrite Hc. now rewrite orb_true_r.
  - unfold forecast_banner, current_banner.
    destruct (contains "CRITICAL" line), (contains "ALERT" line),
      (contains "WARNING" line); cbn; lia.
Qed.

(** A well whose name holds the word. *)
Lemma alert_banner_reads_whole_line_witness :
  current_banner (alert_line "12:00:05" "CRITICAL-7" "pressure back to normal")
  = StError.
Proof.
  exact (proj2 (proj1 (alert_banner_reads_whole_line "12:00:05" "CRITICAL-7"
                         "pressure back to normal") (or_introl eq_refl))).
Defined.

(** ** The lines printed for a merged payload *)

Lemma forecast_count_filter records :
  Forall (fun r => is_dict r = true) records ->
  forecast_count records = Ok (length (filter has_forecast records)).
Proof.
  induction 1 as [|r rest Hr _ IH]; [reflexivity|].
  destruct r; try discriminate Hr.
  cbn [forecast_count filter]. rewrite IH. unfold has_forecast.
  cbn [py_get]. destruct (dict_lookup "forecast" items) as [v|].
  - destruct (truthy v); reflexivity.
  - reflexivity.
Qed.

Section Announcements.

Variable loads : string -> option json.

(** X21: for a payload that is merged the listener prints the number of
    its records and then, only when at least one record has a forecast that
    is not null, false, zero or empty, the number of such records. *)
Theorem merged_payload_is_announced (c : connection) (records h : list json)
    (l : list event) :
  delivers loads c records ->
  let k := length (filter has_forecast records) in
  handle_connection loads WriteOk c (mkWorld (Stored (JArr h)) l)
  = (Ok tt,
     mkWorld (Stored (JArr (firstn 1000 (records ++ h))))
       (l ++ Received (addr c) (length records)
          :: (if Nat.eqb k 0 then [] else [Forecasts k]))).
Proof.
  intros [Hdicts (buffer & data & Hrecv & Hne & Hloads & Hshape)] k.
  apply String.eqb_neq in Hne.
  unfold handle_connection, try_except, bind, lift. rewrite Hrecv.
  unfold handle_buffer. rewrite Hne.
  unfold try_except, decode_and_merge, bind, lift, json_loads.
  rewrite Hloads, Hshape. cbn [py_len py_iter print].
  rewrite (forecast_count_filter records Hdicts). fold k.
  destruct k as [|k']; cbn -[firstn]; unfold print; cbn -[firstn];
    rewrite <- ?app_assoc; reflexivity.
Qed.

End Announcements.

(** A record without a forecast. *)
Lemma merged_payload_is_announced_witness :
  handle_connection sample_loads WriteOk
    (mkConnection "10.0.0.7:50112" [Chunk "[{}]"])
    (mkWorld (Stored (JArr [record_w3])) [])
  = (Ok tt,
     mkWorld (Stored (JArr (firstn 1000 ([JObj []] ++ [record_w3]))))
       [Received "10.0.0.7:50112" 1]).
Proof.
  exact (merged_payload_is_announced sample_loads _ [JObj []] [record_w3] []
           (sample_connection_delivers "10.0.0.7:50112")).
Defined.
